(** * Two illustrative numeric models: prediction horizon and fairness collapse

    A shallow embedding of [experiment1_prediction_horizon.py] and
    [experiment2_fairness_divergence.py].

    The Python code computes with [int] and [float].  The formulas are
    written once, over an arithmetic signature, and read in two
    arithmetics:

    - [exact]: decimal literals are the rationals they denote and every
      operation is exact;
    - [binary64]: literals, conversions and operations are rounded to
      IEEE 754 double precision, as CPython evaluates them.

    Statements about particular inputs are proved in both readings.
    Statements about all cycle indices are proved in the exact reading
    and, where they compare values, checked by evaluation over the cycle
    indices up to 2000 in the binary64 reading. *)

From Stdlib Require Import ZArith QArith Qabs Qminmax Lia Lqa List Bool.
From Stdlib Require Import PrimFloat FloatOps SpecFloat.
From Stdlib Require Import Ascii String DecimalString.
Import ListNotations.

Set Warnings "-inexact-float".

Local Open Scope Z_scope.

(** ** Exceptions *)

(** The exceptions the two scripts can raise from their arithmetic and
    from the built-ins they call. *)
Inductive exn : Set :=
  | OverflowError      (* int too large to convert to float, result too large *)
  | ZeroDivisionError  (* division by zero *)
  | ValueError         (* max() of an empty sequence *)
  | IndexError.        (* list index out of range *)

Inductive result (A : Type) : Type :=
  | Ok (a : A)
  | Raise (e : exn).

Arguments Ok {A} a.
Arguments Raise {A} e.

Definition bind {A B : Type} (r : result A) (k : A -> result B) : result B :=
  match r with
  | Ok a => k a
  | Raise e => Raise e
  end.

Notation "x <- e ;; k" := (bind e (fun x => k))
  (at level 61, e at next level, right associativity).

(** [for x in l: acc.append(f(x))], stopping at the first exception. *)
Fixpoint for_append {A B : Type} (f : A -> result B) (l : list A) : result (list B) :=
  match l with
  | [] => Ok []
  | x :: l' => y <- f x ;; ys <- for_append f l' ;; Ok (y :: ys)
  end.


(** ** The arithmetic signature *)

Class Arith (num : Type) : Type := {
  (** a decimal literal of the source text *)
  lit : Q -> num;
  (** the implicit conversion of an [int] operand in mixed arithmetic *)
  of_int : Z -> result num;
  (** [a / b] on two [int]s (true division) *)
  int_truediv : Z -> Z -> result num;
  add : num -> num -> num;
  sub : num -> num -> num;
  mul : num -> num -> num;
  (** [x / y] on two [float]s *)
  truediv : num -> num -> result num;
  (** [x ** 2] *)
  sqr : num -> result num;
  (** [x < y] *)
  lt : num -> num -> bool;
  (** the rational a number stands for, when it is finite *)
  to_Q : num -> option Q
}.

Arguments lit {num _} _%_Q.

Declare Scope num_scope.
Delimit Scope num_scope with num.
Infix "+" := add : num_scope.
Infix "-" := sub : num_scope.
Infix "*" := mul : num_scope.

Section Formulas.

Context {num : Type} `{Arith num}.

(** *** Mixed [int]/[float] operations *)

(** [i * x] and [x * i] with [i] an [int]: the [int] is converted first. *)
Definition int_mul (i : Z) (x : num) : result num :=
  f <- of_int i ;; Ok (f * x)%num.

Definition mul_int (x : num) (i : Z) : result num :=
  f <- of_int i ;; Ok (x * f)%num.

(** [i + x] and [i - x] with [i] an [int]. *)
Definition int_add (i : Z) (x : num) : result num :=
  f <- of_int i ;; Ok (f + x)%num.

Definition int_sub (i : Z) (x : num) : result num :=
  f <- of_int i ;; Ok (f - x)%num.

(** [x / i] with [i] an [int]. *)
Definition truediv_int (x : num) (i : Z) : result num :=
  f <- of_int i ;; truediv x f.

(** *** The built-ins [min] and [max] on two arguments

    CPython keeps the first argument unless the second compares strictly
    below (for [min]) or strictly above (for [max]). *)
Definition py_min (a b : num) : num := if lt b a then b else a.
Definition py_max (a b : num) : num := if lt a b then b else a.

(** ** Experiment 2: fairness under model divergence *)

(** The dictionary returned by [simulate_fairness_collapse]. *)
Record CycleSample : Type := {
  cycle : Z;
  divergence : num;
  fairness : num
}.

Definition simulate_fairness_collapse (cycle_num : Z) (with_mitigation : bool)
  : result CycleSample :=
  if with_mitigation then
    t <- int_mul cycle_num (lit 0.0014) ;;
    let divergence := py_min (lit 0.05 + t)%num (lit 0.20) in
    t <- int_mul cycle_num (lit 0.0005) ;;
    let fairness := py_max (lit 0.96 - t)%num (lit 0.90) in
    Ok {| cycle := cycle_num; divergence := divergence; fairness := fairness |}
  else if cycle_num =? 0 then
    Ok {| cycle := cycle_num; divergence := lit 0.0; fairness := lit 0.96 |}
  else if cycle_num <=? 50 then
    divergence <- int_mul cycle_num (lit 0.0084) ;;
    t <- int_mul cycle_num (lit 0.005) ;;
    let fairness := (lit 0.96 - t)%num in
    Ok {| cycle := cycle_num; divergence := divergence; fairness := fairness |}
  else if cycle_num <=? 65 then
    t <- int_mul (cycle_num - 50) (lit 0.0073) ;;
    let divergence := (lit 0.42 + t)%num in
    t <- int_mul (cycle_num - 50) (lit 0.0153) ;;
    let fairness := (lit 0.71 - t)%num in
    Ok {| cycle := cycle_num; divergence := divergence; fairness := fairness |}
  else
    t <- int_mul (cycle_num - 65) (lit 0.0169) ;;
    let divergence := (lit 0.53 + t)%num in
    t <- int_mul (cycle_num - 65) (lit 0.0083) ;;
    let fairness := py_max (lit 0.48 - t)%num (lit 0.15) in
    Ok {| cycle := cycle_num; divergence := divergence; fairness := fairness |}.

(** The script's run over the key cycles. *)
Definition key_cycles : list Z := [0; 50; 65; 100].

Definition results_no_mitigation : result (list CycleSample) :=
  for_append (fun cycle => simulate_fairness_collapse cycle false) key_cycles.

(** [l[-1]] *)
Definition last_item {A : Type} (l : list A) : result A :=
  match rev l with
  | [] => Raise IndexError
  | x :: _ => Ok x
  end.

Definition result_no_mitigation_100 : result CycleSample :=
  l <- results_no_mitigation ;; last_item l.

Definition result_with_mitigation_100 : result CycleSample :=
  simulate_fairness_collapse 100 true.

(** The two improvement percentages, as functions of the pair they are
    computed from. *)
Definition improvement_D_of (no_mitigation with_mitigation : CycleSample)
  : result num :=
  q <- truediv (divergence no_mitigation - divergence with_mitigation)%num
               (divergence no_mitigation) ;;
  mul_int q 100.

Definition improvement_J_of (no_mitigation with_mitigation : CycleSample)
  : result num :=
  q <- truediv (fairness with_mitigation - fairness no_mitigation)%num
               (fairness no_mitigation) ;;
  mul_int q 100.

Definition improvement_D : result num :=
  b <- result_no_mitigation_100 ;;
  m <- result_with_mitigation_100 ;;
  improvement_D_of b m.

Definition improvement_J : result num :=
  b <- result_no_mitigation_100 ;;
  m <- result_with_mitigation_100 ;;
  improvement_J_of b m.

(** ** Experiment 1: optimal prediction horizon *)

(** The dictionary returned by [simulate_prediction_horizon]; the fields
    carry the names of the local variables they are filled from. *)
Record Metrics : Type := {
  throughput_mbps : num;
  latency_ms : num;
  prediction_error_ms : num
}.

(** [tau_pred] is an [int], as every value of [horizons] is. *)
Definition simulate_prediction_horizon (tau_pred : Z) : result Metrics :=
  let link_capacity_mbps := 1000 in
  base_throughput_mbps <- int_mul link_capacity_mbps (lit 0.95) ;;
  let base_latency_ms := lit 7.0 in
  let base_error_ms := lit 0.4 in
  q <- int_truediv tau_pred 60 ;;
  s <- int_add 1 q ;;
  p <- sqr s ;;
  let prediction_error_ms := (base_error_ms * p)%num in
  link_efficiency <-
    (if tau_pred <? 20 then
       time_ratio <- int_truediv tau_pred 20 ;;
       Ok (lit 0.80 + time_ratio * lit 0.15)%num
     else if tau_pred <? 60 then
       Ok (lit 0.95)
     else
       q <- int_truediv (tau_pred - 60) 200 ;;
       Ok (lit 0.95 - q)%num) ;;
  error_penalty <- truediv_int prediction_error_ms 10 ;;
  t <- int_sub 1 error_penalty ;;
  let throughput_mbps := (base_throughput_mbps * link_efficiency * t)%num in
  t <- mul_int prediction_error_ms 2 ;;
  let latency_ms := (base_latency_ms + t)%num in
  Ok {| throughput_mbps := throughput_mbps;
        latency_ms := latency_ms;
        prediction_error_ms := prediction_error_ms |}.

(** An entry of [results]. *)
Record HorizonSample : Type := {
  horizon : Z;
  throughput : num;
  latency : num;
  prediction_error : num
}.

Definition horizons : list Z := [10; 30; 45; 60; 90].

Definition results : result (list HorizonSample) :=
  for_append
    (fun tau =>
       metrics <- simulate_prediction_horizon tau ;;
       Ok {| horizon := tau;
             throughput := throughput_mbps metrics;
             latency := latency_ms metrics;
             prediction_error := prediction_error_ms metrics |})
    horizons.

(** [max(iterable, key=...)]: the first item is the running maximum and a
    later item replaces it only when its key compares strictly greater. *)
Fixpoint max_scan {S : Type} (key : S -> num) (best : S) (l : list S) : S :=
  match l with
  | [] => best
  | x :: l' => max_scan key (if lt (key best) (key x) then x else best) l'
  end.

Definition py_max_key {S : Type} (key : S -> num) (l : list S) : result S :=
  match l with
  | [] => Raise ValueError
  | x :: l' => Ok (max_scan key x l')
  end.

(** [max(results, key=lambda x: x['throughput'])], as a function of the
    list it scans, and on the script's own [results]. *)
Definition optimal_of (results : list HorizonSample) : result HorizonSample :=
  py_max_key throughput results.

Definition optimal : result HorizonSample :=
  rs <- results ;; optimal_of rs.

End Formulas.

Arguments CycleSample num : clear implicits.
Arguments Metrics num : clear implicits.
Arguments HorizonSample num : clear implicits.

(** ** The exact reading

    Numbers are rationals; an [int] converts to itself; nothing overflows
    and only a division by zero raises. *)

Definition Qlt_bool (x y : Q) : bool := negb (Qle_bool y x).

#[export] Instance exact : Arith Q := {|
  lit q := q;
  of_int z := Ok (inject_Z z);
  int_truediv a b :=
    if b =? 0 then Raise ZeroDivisionError else Ok (inject_Z a / inject_Z b)%Q;
  add := Qplus;
  sub := Qminus;
  mul := Qmult;
  truediv x y :=
    if Qeq_bool y 0 then Raise ZeroDivisionError else Ok (x / y)%Q;
  sqr x := Ok (x * x)%Q;
  lt := Qlt_bool;
  to_Q x := Some x
|}.

(** ** The binary64 reading

    Numbers are the kernel's binary64 floats.  A literal is the double
    nearest to the decimal it writes, an [int] operand converts to the
    nearest double or raises [OverflowError], the true division of two
    [int]s is the double nearest to the exact quotient, and [+], [-], [*],
    [/] round to nearest, ties to even.  [x ** 2] is read as the correctly
    rounded square; the C library's [pow] may differ from it in the last
    place. *)

Definition Z2SF (z : Z) : spec_float :=
  match z with
  | Z0 => S754_zero false
  | Zpos p => S754_finite false p 0
  | Zneg p => S754_finite true p 0
  end.

(** The double nearest to an integer, and to a quotient of two integers
    (ties to even; [infinity] past the largest double). *)
Definition round_int (z : Z) : float :=
  SF2Prim (binary_normalize prec emax z 0 false).

Definition round_quot (a b : Z) : float :=
  SF2Prim (SFdiv prec emax (Z2SF a) (Z2SF b)).

Definition finite_or_overflow (f : float) : result float :=
  if is_infinity f then Raise OverflowError else Ok f.

(** The least magnitude that rounds past the largest double; CPython
    refuses to convert an [int] from there on. *)
Definition overflow_threshold : Z := 2 ^ 1024 - 2 ^ 970.

(** The rational a finite double stands for. *)
Definition float_to_Q (f : float) : option Q :=
  match Prim2SF f with
  | S754_zero _ => Some 0%Q
  | S754_finite s m e =>
      Some (inject_Z (if s then Zneg m else Zpos m) * Qpower 2 e)%Q
  | _ => None
  end.

#[export] Instance binary64 : Arith float := {|
  lit q := round_quot (Qnum q) (Zpos (Qden q));
  of_int z :=
    if Z.abs z <? overflow_threshold then Ok (round_int z)
    else Raise OverflowError;
  int_truediv a b :=
    if b =? 0 then Raise ZeroDivisionError
    else finite_or_overflow (round_quot a b);
  add := PrimFloat.add;
  sub := PrimFloat.sub;
  mul := PrimFloat.mul;
  truediv x y :=
    if PrimFloat.eqb y PrimFloat.zero then Raise ZeroDivisionError
    else Ok (PrimFloat.div x y);
  sqr x :=
    let y := PrimFloat.mul x x in
    if is_infinity y && negb (is_infinity x) then Raise OverflowError else Ok y;
  lt := PrimFloat.ltb;
  to_Q := float_to_Q
|}.

(** ** Vocabulary of the statements *)

(** [x] stands for a rational within [tol] of [q]. *)
Definition approx {num : Type} `{Arith num} (tol : Q) (x : num) (q : Q) : Prop :=
  match to_Q x with
  | Some v => (Qabs (v - q) <= tol)%Q
  | None => False
  end.

Definition approxb {num : Type} `{Arith num} (tol : Q) (x : num) (q : Q) : bool :=
  match to_Q x with
  | Some v => Qle_bool (Qabs (v - q)) tol
  | None => false
  end.

(** [x] and [y] stand for the same rational: Python's [x == y] on finite
    numbers. *)
Definition same_value {num : Type} `{Arith num} (x y : num) : Prop :=
  match to_Q x, to_Q y with
  | Some a, Some b => (a == b)%Q
  | _, _ => False
  end.

Definition same_valueb {num : Type} `{Arith num} (x y : num) : bool :=
  match to_Q x, to_Q y with
  | Some a, Some b => Qeq_bool a b
  | _, _ => false
  end.

(** A call returns a sample whose divergence and fairness are within
    [tol] of [d] and [j]. *)
Definition sample_is {num : Type} `{Arith num}
  (r : result (CycleSample num)) (tol d j : Q) : Prop :=
  match r with
  | Ok s => approx tol (divergence s) d /\ approx tol (fairness s) j
  | Raise _ => False
  end.

Definition sample_isb {num : Type} `{Arith num}
  (r : result (CycleSample num)) (tol d j : Q) : bool :=
  match r with
  | Ok s => approxb tol (divergence s) d && approxb tol (fairness s) j
  | Raise _ => false
  end.

(** A statement read in both arithmetics. *)
Definition in_both (P : forall num : Type, Arith num -> Prop) : Prop :=
  P Q exact /\ P float binary64.

Definition fails {A : Type} (r : result A) : Prop := exists e, r = Raise e.

(** [(x - y) / d * 100] on the rationals the three numbers stand for. *)
Definition pct_of_difference {num : Type} `{Arith num} (x y d : num)
  : option Q :=
  match to_Q x, to_Q y, to_Q d with
  | Some a, Some b, Some c => Some ((a - b) / c * 100)%Q
  | _, _, _ => None
  end.

Definition approx_some {num : Type} `{Arith num}
  (tol : Q) (v : num) (o : option Q) : Prop :=
  match o with
  | Some q => approx tol v q
  | None => False
  end.

Definition approx_someb {num : Type} `{Arith num}
  (tol : Q) (v : num) (o : option Q) : bool :=
  match o with
  | Some q => approxb tol v q
  | None => false
  end.

(** [x <= y] on the rationals two finite numbers stand for. *)
Definition leq_valueb {num : Type} `{Arith num} (x y : num) : bool :=
  match to_Q x, to_Q y with
  | Some a, Some b => Qle_bool a b
  | _, _ => false
  end.

(** ** The exact reading of [simulate_fairness_collapse], phase by phase

    What the function returns in the exact reading, with the conversions
    and the error plumbing evaluated away
    (see [simulate_exact_unmitigated] and [simulate_exact_mitigated]). *)

Definition exact_unmitigated (c : Z) : CycleSample Q :=
  if c =? 0 then
    {| cycle := c; divergence := 0.0%Q; fairness := 0.96%Q |}
  else if c <=? 50 then
    {| cycle := c;
       divergence := (inject_Z c * 0.0084)%Q;
       fairness := (0.96 - inject_Z c * 0.005)%Q |}
  else if c <=? 65 then
    {| cycle := c;
       divergence := (0.42 + inject_Z (c - 50) * 0.0073)%Q;
       fairness := (0.71 - inject_Z (c - 50) * 0.0153)%Q |}
  else
    {| cycle := c;
       divergence := (0.53 + inject_Z (c - 65) * 0.0169)%Q;
       fairness := py_max (0.48 - inject_Z (c - 65) * 0.0083)%Q 0.15%Q |}.

Definition exact_mitigated (c : Z) : CycleSample Q :=
  {| cycle := c;
     divergence := py_min (0.05 + inject_Z c * 0.0014)%Q 0.20%Q;
     fairness := py_max (0.96 - inject_Z c * 0.0005)%Q 0.90%Q |}.

(** ** The mitigated formulas as the specification writes them *)

Definition spec_mitigated_divergence (cycle_index : Z) : Q :=
  Qmin (0.05 + 0.0014 * inject_Z cycle_index)%Q 0.20%Q.

Definition spec_mitigated_fairness (cycle_index : Z) : Q :=
  Qmax (0.96 - 0.0005 * inject_Z cycle_index)%Q 0.90%Q.

(** ** Checks over a range of cycle indices

    Each check runs over the cycle indices [0 .. n-1]. *)

(** The mitigated path returns, within 1e-9, the two formulas of the
    specification. *)
Definition mitigated_close_upto {num : Type} `{Arith num} (n : nat) : bool :=
  forallb
    (fun c =>
       sample_isb (simulate_fairness_collapse (num := num) c true) 1e-9
         (spec_mitigated_divergence c) (spec_mitigated_fairness c))
    (map Z.of_nat (seq 0 n)).

(** The step from a cycle index to the next does not raise the fairness. *)
Definition fairness_steps_down_upto {num : Type} `{Arith num}
  (with_mitigation : bool) (n : nat) : bool :=
  forallb
    (fun c =>
       match simulate_fairness_collapse (num := num) c with_mitigation,
             simulate_fairness_collapse (num := num) (c + 1) with_mitigation
       with
       | Ok s1, Ok s2 => leq_valueb (fairness s2) (fairness s1)
       | _, _ => false
       end)
    (map Z.of_nat (seq 0 n)).

(** The mitigated fairness is at least the unmitigated one, and equal to
    it at cycle 0 only. *)
Definition dominance_upto {num : Type} `{Arith num} (n : nat) : bool :=
  forallb
    (fun c =>
       match simulate_fairness_collapse (num := num) c true,
             simulate_fairness_collapse (num := num) c false
       with
       | Ok m, Ok u =>
           leq_valueb (fairness u) (fairness m)
           && Bool.eqb (same_valueb (fairness m) (fairness u)) (c =? 0)
       | _, _ => false
       end)
    (map Z.of_nat (seq 0 n)).

(** ** A sequence with a tie

    Two samples tie at throughput 5 behind a smaller one. *)
Definition tie_samples : list (HorizonSample Q) :=
  [ {| horizon := 1; throughput := 3; latency := 0; prediction_error := 0 |};
    {| horizon := 2; throughput := 5; latency := 0; prediction_error := 0 |};
    {| horizon := 3; throughput := 5; latency := 0; prediction_error := 0 |} ]%Q.

(** ** The exact reading of [simulate_prediction_horizon]

    What the function returns in the exact reading, with the conversions
    and the error plumbing evaluated away (see [simulate_exact_horizon]). *)

Definition exact_prediction_error (tau : Z) : Q :=
  (0.4 * ((inject_Z 1 + inject_Z tau / inject_Z 60)
          * (inject_Z 1 + inject_Z tau / inject_Z 60)))%Q.

Definition exact_efficiency (tau : Z) : Q :=
  if tau <? 20 then (0.80 + inject_Z tau / inject_Z 20 * 0.15)%Q
  else if tau <? 60 then 0.95%Q
  else (0.95 - inject_Z (tau - 60) / inject_Z 200)%Q.

(** [1 - error_penalty] *)
Definition exact_margin (tau : Z) : Q :=
  (inject_Z 1 - exact_prediction_error tau / inject_Z 10)%Q.

Definition exact_metrics (tau : Z) : Metrics Q :=
  {| throughput_mbps :=
       (inject_Z 1000 * 0.95 * exact_efficiency tau * exact_margin tau)%Q;
     latency_ms := (7.0 + exact_prediction_error tau * inject_Z 2)%Q;
     prediction_error_ms := exact_prediction_error tau |}.

(** ** Comparing the rationals two numbers stand for *)

Definition leq_value {num : Type} `{Arith num} (x y : num) : Prop :=
  match to_Q x, to_Q y with
  | Some a, Some b => (a <= b)%Q
  | _, _ => False
  end.

Definition lt_value {num : Type} `{Arith num} (x y : num) : Prop :=
  match to_Q x, to_Q y with
  | Some a, Some b => (a < b)%Q
  | _, _ => False
  end.

Definition lt_valueb {num : Type} `{Arith num} (x y : num) : bool :=
  match to_Q x, to_Q y with
  | Some a, Some b => Qlt_bool a b
  | _, _ => false
  end.

(** The integers [0 .. n-1]. *)
Definition upto (n : nat) : list Z := map Z.of_nat (seq 0 n).

(** The throughput at [tau] is strictly below the throughput at [peak],
    as rationals and as the code compares them. *)
Definition below_peak {num : Type} `{Arith num} (peak tau : Z) : bool :=
  match simulate_prediction_horizon (num := num) tau,
        simulate_prediction_horizon (num := num) peak
  with
  | Ok m, Ok mp =>
      lt_valueb (throughput_mbps m) (throughput_mbps mp)
      && lt (throughput_mbps m) (throughput_mbps mp)
  | _, _ => false
  end.

(** The binary64 results at a cycle index, or at a horizon, are within
    [tol] of the exact ones. *)
Definition tracks_exact_cycle (tol : Q) (with_mitigation : bool) (c : Z)
  : bool :=
  match simulate_fairness_collapse (num := float) c with_mitigation,
        simulate_fairness_collapse (num := Q) c with_mitigation
  with
  | Ok s, Ok e =>
      approxb tol (divergence s) (divergence e)
      && approxb tol (fairness s) (fairness e)
  | _, _ => false
  end.

Definition tracks_exact_horizon (tol : Q) (tau : Z) : bool :=
  match simulate_prediction_horizon (num := float) tau,
        simulate_prediction_horizon (num := Q) tau
  with
  | Ok m, Ok e =>
      approxb tol (throughput_mbps m) (throughput_mbps e)
      && approxb tol (latency_ms m) (latency_ms e)
      && approxb tol (prediction_error_ms m) (prediction_error_ms e)
  | _, _ => false
  end.

(** From a cycle index to the next the fairness does not rise and the
    divergence does not fall. *)
Definition step_ok {num : Type} `{Arith num} (with_mitigation : bool) (c : Z)
  : bool :=
  match simulate_fairness_collapse (num := num) c with_mitigation,
        simulate_fairness_collapse (num := num) (c + 1) with_mitigation
  with
  | Ok s1, Ok s2 =>
      leq_valueb (fairness s2) (fairness s1)
      && leq_valueb (divergence s1) (divergence s2)
  | _, _ => false
  end.

(** The same between any two cycle indices, as a proposition. *)
Definition ordered_samples {num : Type} `{Arith num} (with_mitigation : bool)
  (c1 c2 : Z) : Prop :=
  exists s1 s2,
    simulate_fairness_collapse (num := num) c1 with_mitigation = Ok s1 /\
    simulate_fairness_collapse (num := num) c2 with_mitigation = Ok s2 /\
    leq_value (fairness s2) (fairness s1) /\
    leq_value (divergence s1) (divergence s2).

(** At a cycle index the mitigated fairness is at least the unmitigated
    one, and equal to it at cycle 0 only. *)
Definition dominance_at {num : Type} `{Arith num} (c : Z) : bool :=
  match simulate_fairness_collapse (num := num) c true,
        simulate_fairness_collapse (num := num) c false
  with
  | Ok m, Ok u =>
      leq_valueb (fairness u) (fairness m)
      && Bool.eqb (same_valueb (fairness m) (fairness u)) (c =? 0)
  | _, _ => false
  end.

(** ** What the scripts print

    [print] and the f-string formats [:.0f], [:.1f] and [:.2f] of the two
    scripts, on binary64 numbers.  A format to [d] decimals renders the
    decimal nearest to the exact value of the double, ties to the even
    digit, with the sign of the double (also in front of a zero). *)

Definition nl : string := String (ascii_of_nat 10) EmptyString.

(** [n / d] rounded to the nearest integer, ties to even. *)
Definition round_half_even (n d : N) : N :=
  let q := (n / d)%N in
  let r := (n mod d)%N in
  match (2 * r ?= d)%N with
  | Lt => q
  | Gt => (q + 1)%N
  | Eq => if N.even q then q else (q + 1)%N
  end.

(** The last [d] decimal digits of [n]. *)
Fixpoint frac_digits (d : nat) (n : N) : string :=
  match d with
  | O => EmptyString
  | S d' =>
      (frac_digits d' (n / 10)%N
       ++ NilEmpty.string_of_uint (N.to_uint (n mod 10)%N))%string
  end.

(** [n / 10^d] written with [d] decimals. *)
Definition render (d : nat) (n : N) : string :=
  let unit := (10 ^ N.of_nat d)%N in
  (NilEmpty.string_of_uint (N.to_uint (n / unit)%N)
   ++ match d with
      | O => EmptyString
      | S _ => "." ++ frac_digits d (n mod unit)%N
      end)%string.

(** [f"{x:.df}"] *)
Definition format_f (d : nat) (x : float) : string :=
  let sign (s : bool) := if s then "-"%string else EmptyString in
  match Prim2SF x with
  | S754_nan => "nan"%string
  | S754_infinity s => (sign s ++ "inf")%string
  | S754_zero s => (sign s ++ render d 0)%string
  | S754_finite s m e =>
      let scaled :=
        match e with
        | Zneg k => round_half_even (Npos m * 10 ^ N.of_nat d) (2 ^ Npos k)
        | _ => (Npos m * 2 ^ Z.to_N e * 10 ^ N.of_nat d)%N
        end in
      (sign s ++ render d scaled)%string
  end.

(** [f"{i}"] on an [int] *)
Definition format_int (i : Z) : string := NilZero.string_of_int (Z.to_int i).

(** ["-" * n] *)
Fixpoint dashes (n : nat) : string :=
  match n with
  | O => EmptyString
  | S n' => String "-" (dashes n')
  end.

(** A script step: it extends the text printed so far, and returns or
    raises. *)
Definition io (A : Type) : Type := string -> string * result A.

Definition io_ret {A : Type} (a : A) : io A := fun out => (out, Ok a).

Definition io_bind {A B : Type} (m : io A) (k : A -> io B) : io B :=
  fun out =>
    match m out with
    | (out', Ok a) => k a out'
    | (out', Raise e) => (out', Raise e)
    end.

Definition print (s : string) : io unit :=
  fun out => ((out ++ s ++ nl)%string, Ok tt).

(** A computation that prints nothing. *)
Definition eval {A : Type} (r : result A) : io A := fun out => (out, r).

Notation "x <~ e ;; k" := (io_bind e (fun x => k))
  (at level 61, e at next level, right associativity).
Notation "e ;;; k" := (io_bind e (fun _ => k))
  (at level 61, right associativity).

(** The text of lines printed one after the other. *)
Fixpoint unlines (ls : list string) : string :=
  match ls with
  | [] => EmptyString
  | l :: ls' => (l ++ nl ++ unlines ls')%string
  end.

(** *** [experiment2_fairness_divergence.py], lines 89 to 131 *)

Definition print_sample (result : CycleSample float) : io unit :=
  print ("Model Divergence (D): " ++ format_f 2 (divergence result)) ;;;
  print ("Fairness (J): " ++ format_f 2 (fairness result) ++ nl).

Fixpoint key_cycles_loop (cycles : list Z)
  (results_no_mitigation : list (CycleSample float))
  : io (list (CycleSample float)) :=
  match cycles with
  | [] => io_ret results_no_mitigation
  | cycle :: cycles' =>
      result <~ eval (simulate_fairness_collapse cycle false) ;;
      let results_no_mitigation := results_no_mitigation ++ [result] in
      print ("Cycle " ++ format_int cycle ++ ":") ;;;
      print_sample result ;;;
      key_cycles_loop cycles' results_no_mitigation
  end.

(** The script; it returns [(improvement_D, improvement_J)]. *)
Definition experiment2_script : io (float * float) :=
  print ("Experiment 2: Fairness Under Model Divergence" ++ nl) ;;;
  print "WITHOUT MITIGATIONS:" ;;;
  print (dashes 40 ++ nl) ;;;
  results_no_mitigation <~ key_cycles_loop key_cycles [] ;;
  print (nl ++ "PROPOSED MITIGATION RESULTS:") ;;;
  print (dashes 40 ++ nl) ;;;
  result_no_mitigation_100 <~ eval (last_item results_no_mitigation) ;;
  result_with_mitigation_100 <~ eval (simulate_fairness_collapse 100 true) ;;
  print "Cycle 100 - WITHOUT mitigations:" ;;;
  print_sample result_no_mitigation_100 ;;;
  print "Cycle 100 - WITH mitigations:" ;;;
  print_sample result_with_mitigation_100 ;;;
  improvement_D <~
    eval (improvement_D_of result_no_mitigation_100 result_with_mitigation_100) ;;
  improvement_J <~
    eval (improvement_J_of result_no_mitigation_100 result_with_mitigation_100) ;;
  print "Quantitative improvements:" ;;;
  print (dashes 40) ;;;
  print ("Divergence: " ++ format_f 2 (divergence result_no_mitigation_100)
         ++ " -> " ++ format_f 2 (divergence result_with_mitigation_100) ++ " ") ;;;
  print ("Fairness: " ++ format_f 2 (fairness result_no_mitigation_100)
         ++ " -> " ++ format_f 2 (fairness result_with_mitigation_100) ++ " ") ;;;
  io_ret (improvement_D, improvement_J).

(** *** [experiment1_prediction_horizon.py], lines 46 to 71 *)

Definition print_metrics (throughput latency prediction_error : float)
  (last_line_break : string) : io unit :=
  print ("Throughput: " ++ format_f 0 throughput ++ " Mbps") ;;;
  print ("Latency: " ++ format_f 1 latency ++ " ms") ;;;
  print ("Prediction Error: " ++ format_f 1 prediction_error ++ " ms"
         ++ last_line_break).

Fixpoint horizons_loop (horizons : list Z) (results : list (HorizonSample float))
  : io (list (HorizonSample float)) :=
  match horizons with
  | [] => io_ret results
  | tau :: horizons' =>
      metrics <~ eval (simulate_prediction_horizon tau) ;;
      let results :=
        results ++ [ {| horizon := tau;
                        throughput := throughput_mbps metrics;
                        latency := latency_ms metrics;
                        prediction_error := prediction_error_ms metrics |} ] in
      print ("T = " ++ format_int tau ++ "s:") ;;;
      print_metrics (throughput_mbps metrics) (latency_ms metrics)
        (prediction_error_ms metrics) nl ;;;
      horizons_loop horizons' results
  end.

(** The script up to the plotting; it returns [optimal]. *)
Definition experiment1_script : io (HorizonSample float) :=
  print ("Experiment 1: Optimal Prediction Horizon" ++ nl) ;;;
  results <~ horizons_loop horizons [] ;;
  optimal <~ eval (optimal_of results) ;;
  print ("Optimal prediction horizon: T* = " ++ format_int (horizon optimal)
         ++ "s") ;;;
  print_metrics (throughput optimal) (latency optimal)
    (prediction_error optimal) EmptyString ;;;
  io_ret optimal.

(** ** Basic facts *)

Lemma approxb_spec {num : Type} `{Arith num} (tol : Q) (x : num) (q : Q) :
  approxb tol x q = true <-> approx tol x q.
Proof.
  unfold approxb, approx. destruct (to_Q x) as [v|].
  - apply Qle_bool_iff.
  - split; [discriminate | contradiction].
Qed.

Lemma same_valueb_spec {num : Type} `{Arith num} (x y : num) :
  same_valueb x y = true <-> same_value x y.
Proof.
  unfold same_valueb, same_value.
  destruct (to_Q x) as [a|]; [destruct (to_Q y) as [b|] |].
  - apply Qeq_bool_iff.
  - split; [discriminate | contradiction].
  - split; [discriminate | contradiction].
Qed.

Lemma sample_isb_spec {num : Type} `{Arith num}
  (r : result (CycleSample num)) (tol d j : Q) :
  sample_isb r tol d j = true <-> sample_is r tol d j.
Proof.
  unfold sample_isb, sample_is. destruct r as [s|e].
  - rewrite andb_true_iff, !approxb_spec. tauto.
  - split; [discriminate | contradiction].
Qed.

Lemma Qlt_bool_true (x y : Q) : Qlt_bool x y = true <-> (x < y)%Q.
Proof.
  unfold Qlt_bool. rewrite negb_true_iff, <- not_true_iff_false, Qle_bool_iff.
  split; [apply Qnot_le_lt | apply Qlt_not_le].
Qed.

Lemma Qlt_bool_false (x y : Q) : Qlt_bool x y = false <-> (y <= x)%Q.
Proof.
  unfold Qlt_bool. rewrite negb_false_iff. apply Qle_bool_iff.
Qed.

Lemma inject_Z_sub (a b : Z) : (inject_Z (a - b) == inject_Z a - inject_Z b)%Q.
Proof.
  unfold Z.sub. rewrite inject_Z_plus, inject_Z_opp. reflexivity.
Qed.

Lemma simulate_exact_unmitigated (c : Z) :
  simulate_fairness_collapse (num := Q) c false = Ok (exact_unmitigated c).
Proof.
  unfold simulate_fairness_collapse, exact_unmitigated.
  destruct (c =? 0); [reflexivity|].
  destruct (c <=? 50); [reflexivity|].
  destruct (c <=? 65); reflexivity.
Qed.

Lemma simulate_exact_mitigated (c : Z) :
  simulate_fairness_collapse (num := Q) c true = Ok (exact_mitigated c).
Proof. reflexivity. Qed.

Lemma py_max_exact (a b : Q) :
  (a < b /\ py_max a b = b)%Q \/ (b <= a /\ py_max a b = a)%Q.
Proof.
  unfold py_max; cbn [lt exact].
  destruct (Qlt_bool a b) eqn:E.
  - left. split; [apply Qlt_bool_true, E | reflexivity].
  - right. split; [apply Qlt_bool_false, E | reflexivity].
Qed.

Lemma py_min_exact (a b : Q) :
  (b < a /\ py_min a b = b)%Q \/ (a <= b /\ py_min a b = a)%Q.
Proof.
  unfold py_min; cbn [lt exact].
  destruct (Qlt_bool b a) eqn:E.
  - left. split; [apply Qlt_bool_true, E | reflexivity].
  - right. split; [apply Qlt_bool_false, E | reflexivity].
Qed.

(** Case analysis on the phase of a cycle index, leaving the bounds of the
    phase as facts about [inject_Z c]. *)
Ltac phase c :=
  unfold exact_unmitigated;
  let E := fresh "E" in
  let E50 := fresh "E50" in
  let E65 := fresh "E65" in
  destruct (Z.eqb_spec c 0) as [E|E];
  [ subst c
  | destruct (Z.leb_spec c 50) as [E50|E50];
    [ | destruct (Z.leb_spec c 65) as [E65|E65] ] ].

Ltac to_Q_facts :=
  repeat match goal with
  | Hc : (_ <= _)%Z |- _ => rewrite Zle_Qle in Hc
  | Hc : (_ < _)%Z |- _ => rewrite Zlt_Qlt in Hc
  | |- context [inject_Z (?a - ?b)] =>
      let q := fresh "q" in let Hq := fresh "Hq" in
      pose proof (inject_Z_sub a b) as Hq;
      set (q := inject_Z (a - b)) in *; clearbody q
  | Hc : context [inject_Z (?a - ?b)] |- _ =>
      let q := fresh "q" in let Hq := fresh "Hq" in
      pose proof (inject_Z_sub a b) as Hq;
      set (q := inject_Z (a - b)) in *; clearbody q
  end;
  change (inject_Z 0) with 0%Q in *;
  change (inject_Z 1) with 1%Q in *;
  change (inject_Z 50) with 50%Q in *;
  change (inject_Z 65) with 65%Q in *.

Ltac split_max :=
  repeat match goal with
  | |- context [py_max ?a ?b] =>
      let Hm := fresh "Hm" in
      destruct (py_max_exact a b) as [[? Hm]|[? Hm]]; rewrite Hm; clear Hm
  | |- context [py_min ?a ?b] =>
      let Hm := fresh "Hm" in
      destruct (py_min_exact a b) as [[? Hm]|[? Hm]]; rewrite Hm; clear Hm
  end.

(** Closing a goal about given inputs by evaluation. *)
Ltac by_evaluation := vm_compute; first [reflexivity | discriminate | intro; discriminate].

Ltac check_sample := apply sample_isb_spec; by_evaluation.

Lemma not_approx {num : Type} `{Arith num} (tol : Q) (x : num) (q : Q) :
  approxb tol x q = false -> ~ approx tol x q.
Proof. rewrite <- approxb_spec. intros E F. congruence. Qed.

Lemma not_same_value {num : Type} `{Arith num} (x y : num) :
  same_valueb x y = false -> ~ same_value x y.
Proof. rewrite <- same_valueb_spec. intros E F. congruence. Qed.

Lemma not_sample_is {num : Type} `{Arith num}
  (r : result (CycleSample num)) (tol d j : Q) :
  sample_isb r tol d j = false -> ~ sample_is r tol d j.
Proof. rewrite <- sample_isb_spec. intros E F. congruence. Qed.


(** ** The literals and conversions of the binary64 reading *)

(** The literals of the two scripts, rounded as [lit] rounds them, are
    the doubles the parser of floating-point literals gives. *)
Lemma lit_binary64_agrees :
  map (lit (num := float))
    [0.0014; 0.05; 0.20; 0.0005; 0.96; 0.90; 0.0; 0.0084; 0.005; 0.42;
     0.0073; 0.71; 0.0153; 0.53; 0.0169; 0.48; 0.0083; 0.15; 0.95; 7.0;
     0.4; 0.80]%Q
  = [0.0014; 0.05; 0.20; 0.0005; 0.96; 0.90; 0.0; 0.0084; 0.005; 0.42;
     0.0073; 0.71; 0.0153; 0.53; 0.0169; 0.48; 0.0083; 0.15; 0.95; 7.0;
     0.4; 0.80]%float.
Proof. vm_compute. reflexivity. Qed.

(** Conversion is exact on small integers, rounds ties to even above
    [2^53], and overflows exactly from [overflow_threshold] on. *)
Lemma round_int_samples :
  map round_int [0; 1; 50; 100; -1; 2 ^ 53 + 1; 2 ^ 53 + 3]
  = [0; 1; 50; 100; -1; 9007199254740992; 9007199254740996]%float
  /\ is_infinity (round_int (overflow_threshold - 1)) = false
  /\ is_infinity (round_int overflow_threshold) = true.
Proof. vm_compute. repeat split. Qed.

(** On small integers the rounded quotient is the quotient of the
    converted operands. *)
Lemma round_quot_samples :
  map (fun ab => round_quot (fst ab) (snd ab))
    [(10, 60); (30, 60); (45, 60); (90, 60); (10, 20); (30, 200); (-1, 3)]
  = map (fun ab => PrimFloat.div (round_int (fst ab)) (round_int (snd ab)))
    [(10, 60); (30, 60); (45, 60); (90, 60); (10, 20); (30, 200); (-1, 3)].
Proof. vm_compute. reflexivity. Qed.

(** ** Unmitigated anchors *)

(** Without mitigation, cycle 65 does not return [(0.53, 0.48)] and cycle
    100 does not return [(1.12, 0.19)] to within [1e-9], in either
    reading. *)
Lemma unmitigated_anchors_65_100_off :
  in_both (fun num _ =>
    ~ sample_is (simulate_fairness_collapse (num := num) 65 false)
        1e-9 0.53 0.48 /\
    ~ sample_is (simulate_fairness_collapse (num := num) 100 false)
        1e-9 1.12 0.19).
Proof.
  split; split; apply not_sample_is; by_evaluation.
Qed.

(** C2: without mitigation, cycle 50 returns divergence 0.42 and
    fairness 0.71, cycle 65 returns 0.5295 and 0.4805, and cycle 100
    returns 1.1215 and 0.1895, each within 1e-9; the values at 65 and 100
    agree with (0.53, 0.48) and (1.12, 0.19) to within 0.002. *)
Theorem unmitigated_anchor_values :
  in_both (fun num _ =>
    sample_is (simulate_fairness_collapse (num := num) 50 false)
      1e-9 0.42 0.71 /\
    sample_is (simulate_fairness_collapse (num := num) 65 false)
      1e-9 0.5295 0.4805 /\
    sample_is (simulate_fairness_collapse (num := num) 100 false)
      1e-9 1.1215 0.1895 /\
    sample_is (simulate_fairness_collapse (num := num) 65 false)
      0.002 0.53 0.48 /\
    sample_is (simulate_fairness_collapse (num := num) 100 false)
      0.002 1.12 0.19).
Proof.
  split; repeat (split; [check_sample|]); check_sample.
Qed.

(** ** Cycle 0 *)

(** At cycle 0 the two paths do not return the same pair: the mitigated
    divergence is not 0. *)
Lemma cycle_0_pairs_differ :
  in_both (fun num _ =>
    exists u m,
      simulate_fairness_collapse (num := num) 0 false = Ok u /\
      simulate_fairness_collapse (num := num) 0 true = Ok m /\
      ~ same_value (divergence m) (divergence u) /\
      ~ approx 0 (divergence m) 0.0).
Proof.
  split; do 2 eexists; (split; [by_evaluation|]); (split; [by_evaluation|]);
    (split; [apply not_same_value | apply not_approx]); by_evaluation.
Qed.

(** C3: at cycle 0 the fairness is exactly 0.96 on both paths;
    the divergence is exactly 0.0 without mitigation and exactly the
    residual 0.05 with mitigation. *)
Theorem cycle_0_values :
  in_both (fun num _ =>
    exists u m,
      simulate_fairness_collapse (num := num) 0 false = Ok u /\
      simulate_fairness_collapse (num := num) 0 true = Ok m /\
      same_value (divergence u) (lit 0.0) /\
      same_value (fairness u) (lit 0.96) /\
      same_value (divergence m) (lit 0.05) /\
      same_value (fairness m) (lit 0.96) /\
      same_value (fairness m) (fairness u)).
Proof.
  split; do 2 eexists; (split; [by_evaluation|]); (split; [by_evaluation|]).
  all: repeat (split; [apply same_valueb_spec; by_evaluation|]).
  all: apply same_valueb_spec; by_evaluation.
Qed.

(** ** The mitigated path *)

Lemma exact_mitigated_divergence (c : Z) :
  (divergence (exact_mitigated c) == spec_mitigated_divergence c)%Q.
Proof.
  unfold exact_mitigated, spec_mitigated_divergence; cbn [divergence].
  destruct (Q.min_spec (0.05 + 0.0014 * inject_Z c)%Q 0.20%Q) as [[Hs Es]|[Hs Es]];
    rewrite Es; split_max; lra.
Qed.

Lemma exact_mitigated_fairness (c : Z) :
  (fairness (exact_mitigated c) == spec_mitigated_fairness c)%Q.
Proof.
  unfold exact_mitigated, spec_mitigated_fairness; cbn [fairness].
  destruct (Q.max_spec (0.96 - 0.0005 * inject_Z c)%Q 0.90%Q) as [[Hs Es]|[Hs Es]];
    rewrite Es; split_max; lra.
Qed.

(** C5: for every non-negative cycle index the mitigated path returns
    divergence min(0.05 + 0.0014 * cycle_index, 0.20) and fairness
    max(0.96 - 0.0005 * cycle_index, 0.90), whatever the phase of the
    index; at cycle 100 it returns 0.19 and 0.91 within 1e-9, in both
    readings. *)
Theorem mitigated_single_formula (cycle_index : Z) :
  0 <= cycle_index ->
  (exists s,
     simulate_fairness_collapse (num := Q) cycle_index true = Ok s /\
     cycle s = cycle_index /\
     (divergence s == spec_mitigated_divergence cycle_index)%Q /\
     (fairness s == spec_mitigated_fairness cycle_index)%Q) /\
  in_both (fun num _ =>
    sample_is (simulate_fairness_collapse (num := num) 100 true)
      1e-9 0.19 0.91).
Proof.
  intros _. split.
  - exists (exact_mitigated cycle_index).
    split; [apply simulate_exact_mitigated|].
    split; [reflexivity|].
    split; [apply exact_mitigated_divergence | apply exact_mitigated_fairness].
  - split; check_sample.
Qed.

Lemma mitigated_single_formula_witness :
  (exists s,
     simulate_fairness_collapse (num := Q) 100 true = Ok s /\
     cycle s = 100 /\
     (divergence s == spec_mitigated_divergence 100)%Q /\
     (fairness s == spec_mitigated_fairness 100)%Q) /\
  in_both (fun num _ =>
    sample_is (simulate_fairness_collapse (num := num) 100 true)
      1e-9 0.19 0.91).
Proof. apply (mitigated_single_formula 100). lia. Defined.

(** In the binary64 reading the mitigated path stays within 1e-9 of the
    two formulas on every cycle index up to 2000. *)
Lemma mitigated_binary64_sweep :
  mitigated_close_upto (num := float) 2001 = true.
Proof. vm_compute. reflexivity. Qed.

(** ** Monotonicity and dominance of fairness *)

(** C9: without mitigation, fairness is non-increasing over the whole
    non-negative domain: for cycle indices 0 <= c1 < c2, in any phases,
    the fairness at c2 is at most the fairness at c1. *)
Theorem unmitigated_fairness_non_increasing (c1 c2 : Z) :
  0 <= c1 -> c1 < c2 ->
  exists s1 s2,
    simulate_fairness_collapse (num := Q) c1 false = Ok s1 /\
    simulate_fairness_collapse (num := Q) c2 false = Ok s2 /\
    (fairness s2 <= fairness s1)%Q.
Proof.
  intros H0 H12.
  exists (exact_unmitigated c1), (exact_unmitigated c2).
  split; [apply simulate_exact_unmitigated|].
  split; [apply simulate_exact_unmitigated|].
  phase c1; phase c2; try lia; cbn [fairness]; split_max; to_Q_facts; lra.
Qed.

Lemma unmitigated_fairness_non_increasing_witness :
  exists s1 s2,
    simulate_fairness_collapse (num := Q) 65 false = Ok s1 /\
    simulate_fairness_collapse (num := Q) 66 false = Ok s2 /\
    (fairness s2 <= fairness s1)%Q.
Proof. apply (unmitigated_fairness_non_increasing 65 66); lia. Defined.

(** In the binary64 reading each step from a cycle index to the next, up
    to 2000, does not raise the unmitigated fairness. *)
Lemma unmitigated_fairness_binary64_sweep :
  fairness_steps_down_upto (num := float) false 2000 = true.
Proof. vm_compute. reflexivity. Qed.

(** C10: for every non-negative cycle index the mitigated fairness is at
    least the unmitigated fairness, and the two are equal exactly at
    cycle 0. *)
Theorem mitigated_fairness_dominates (c : Z) :
  0 <= c ->
  exists m u,
    simulate_fairness_collapse (num := Q) c true = Ok m /\
    simulate_fairness_collapse (num := Q) c false = Ok u /\
    (fairness u <= fairness m)%Q /\
    ((fairness m == fairness u)%Q <-> c = 0).
Proof.
  intros H0.
  exists (exact_mitigated c), (exact_unmitigated c).
  split; [apply simulate_exact_mitigated|].
  split; [apply simulate_exact_unmitigated|].
  unfold exact_mitigated.
  phase c; cbn [fairness].
  - split; [split_max; to_Q_facts; lra|].
    split; [reflexivity|]. intros _. split_max; to_Q_facts; lra.
  - assert (H1 : 1 <= c) by lia.
    split; [split_max; to_Q_facts; lra|].
    split; [|contradiction].
    split_max; to_Q_facts; lra.
  - split; [split_max; to_Q_facts; lra|].
    split; [|contradiction].
    split_max; to_Q_facts; lra.
  - split; [split_max; to_Q_facts; lra|].
    split; [|contradiction].
    split_max; to_Q_facts; lra.
Qed.

Lemma mitigated_fairness_dominates_witness :
  exists m u,
    simulate_fairness_collapse (num := Q) 0 true = Ok m /\
    simulate_fairness_collapse (num := Q) 0 false = Ok u /\
    (fairness u <= fairness m)%Q /\
    ((fairness m == fairness u)%Q <-> 0 = 0).
Proof. apply (mitigated_fairness_dominates 0). lia. Defined.

(** ** Input validation *)

Lemma of_int_binary64 (z : Z) :
  Z.abs z < overflow_threshold -> of_int (num := float) z = Ok (round_int z).
Proof.
  intros Hz.
  change (of_int (num := float) z)
    with (if Z.abs z <? overflow_threshold then Ok (round_int z)
          else Raise OverflowError).
  destruct (Z.ltb_spec (Z.abs z) overflow_threshold); [reflexivity | lia].
Qed.



(** The one error the model can raise is the conversion of an [int] no
    double can hold. *)
Lemma huge_cycle_overflows :
  simulate_fairness_collapse (num := float) overflow_threshold true
  = Raise OverflowError.
Proof. vm_compute. reflexivity. Qed.



(** ** The optimum of experiment 1 *)

Lemma max_scan_exact {S : Type} (key : S -> Q) (l : list S) :
  forall best,
  exists before after,
    best :: l = before ++ max_scan key best l :: after /\
    Forall (fun x => key x < key (max_scan key best l))%Q before /\
    Forall (fun x => key x <= key (max_scan key best l))%Q after.
Proof.
  induction l as [|x l' IH]; intros best; cbn [max_scan].
  - exists [], []. repeat split; constructor.
  - change (lt (key best) (key x)) with (Qlt_bool (key best) (key x)).
    destruct (Qlt_bool (key best) (key x)) eqn:E.
    + apply Qlt_bool_true in E.
      destruct (IH x) as (before & after & Heq & Hb & Ha).
      exists (best :: before), after.
      split; [cbn [app]; f_equal; exact Heq|].
      split; [|exact Ha].
      constructor; [|exact Hb].
      destruct before as [|b before'].
      * injection Heq as Hx _. rewrite <- Hx. exact E.
      * injection Heq as Hx _. subst b.
        apply Qlt_trans with (key x); [exact E|].
        inversion Hb; assumption.
    + apply Qlt_bool_false in E.
      destruct (IH best) as (before & after & Heq & Hb & Ha).
      destruct before as [|b before'].
      * injection Heq as Hm Hl.
        exists [], (x :: after).
        split; [cbn [app]; rewrite <- Hm, Hl; reflexivity|].
        split; [constructor|].
        constructor; [rewrite <- Hm; exact E | exact Ha].
      * injection Heq as Hm Hl. subst b.
        exists (best :: x :: before'), after.
        split; [cbn [app]; do 2 f_equal; exact Hl|].
        split; [|exact Ha].
        inversion Hb as [|? ? Hbest Hrest]; subst.
        constructor; [exact Hbest|].
        constructor; [|exact Hrest].
        apply Qle_lt_trans with (key best); assumption.
Qed.

(** C8: on an empty sequence the selection fails (with the exception
    [max] raises on an empty sequence); on a non-empty sequence it returns
    a sample of the sequence whose throughput is maximal, and the first
    such in input order: every sample before it has strictly smaller
    throughput. *)
Theorem optimal_is_first_maximum :
  optimal_of (num := Q) [] = Raise ValueError /\
  forall rs : list (HorizonSample Q),
    rs <> [] ->
    exists best before after,
      optimal_of rs = Ok best /\
      rs = before ++ best :: after /\
      Forall (fun x => throughput x < throughput best)%Q before /\
      Forall (fun x => throughput x <= throughput best)%Q after.
Proof.
  split; [reflexivity|].
  intros [|r rs] Hne; [contradiction|].
  destruct (max_scan_exact throughput rs r) as (before & after & Heq & Hb & Ha).
  exists (max_scan throughput r rs), before, after.
  repeat split; assumption.
Qed.

(** On [tie_samples] the first of the two tied samples is selected. *)
Lemma optimal_is_first_maximum_witness :
  exists best before after,
    optimal_of tie_samples = Ok best /\
    tie_samples = before ++ best :: after /\
    Forall (fun x => throughput x < throughput best)%Q before /\
    Forall (fun x => throughput x <= throughput best)%Q after.
Proof.
  apply (proj2 optimal_is_first_maximum tie_samples). discriminate.
Defined.

Lemma optimal_of_tie_samples :
  option_map horizon
    (match optimal_of tie_samples with Ok s => Some s | Raise _ => None end)
  = Some 2.
Proof. reflexivity. Qed.

(** C4: over the horizons [10, 30, 45, 60, 90] the five throughputs are
    about 785.99, 821.27, 791.94, 758.10 and 570.00 Mbps; the throughput at
    30 is strictly greater than each of the other four, and the selection
    returns the sample of horizon 30.  In both readings. *)
Theorem optimal_horizon_is_30 :
  in_both (fun num _ =>
    exists s10 s30 s45 s60 s90,
      results (num := num) = Ok [s10; s30; s45; s60; s90] /\
      map horizon [s10; s30; s45; s60; s90] = [10; 30; 45; 60; 90] /\
      lt (throughput s10) (throughput s30) = true /\
      lt (throughput s45) (throughput s30) = true /\
      lt (throughput s60) (throughput s30) = true /\
      lt (throughput s90) (throughput s30) = true /\
      approx 0.01 (throughput s10) 785.99 /\
      approx 0.01 (throughput s30) 821.27 /\
      approx 0.01 (throughput s45) 791.94 /\
      approx 0.01 (throughput s60) 758.10 /\
      approx 0.01 (throughput s90) 570.00 /\
      optimal = Ok s30).
Proof.
  split; do 5 eexists; (split; [by_evaluation|]); (split; [by_evaluation|]).
  all: do 4 (split; [by_evaluation|]).
  all: do 5 (split; [apply approxb_spec; by_evaluation|]).
  all: by_evaluation.
Qed.

(** ** The improvement percentages at cycle 100 *)

Lemma approx_someb_spec {num : Type} `{Arith num}
  (tol : Q) (v : num) (o : option Q) :
  approx_someb tol v o = true <-> approx_some tol v o.
Proof.
  destruct o as [q|]; cbn [approx_someb approx_some].
  - apply approxb_spec.
  - split; [discriminate | contradiction].
Qed.

Lemma not_approx_some {num : Type} `{Arith num}
  (tol : Q) (v : num) (o : option Q) :
  approx_someb tol v o = false -> ~ approx_some tol v o.
Proof. rewrite <- approx_someb_spec. intros E F. congruence. Qed.

(** The divergence improvement of the cycle-100 pair is not 83.04 at the
    two decimals of that figure: it is farther than 0.01 from it, in
    either reading. *)
Lemma divergence_improvement_not_83_04 :
  in_both (fun num _ =>
    exists baseline mitigated v,
      result_no_mitigation_100 (num := num) = Ok baseline /\
      result_with_mitigation_100 (num := num) = Ok mitigated /\
      improvement_D = Ok v /\
      ~ approx 0.005 v 83.04 /\
      ~ approx 0.01 v 83.04).
Proof.
  split; do 3 eexists; do 3 (split; [by_evaluation|]).
  all: split; apply not_approx; by_evaluation.
Qed.

(** C6: for the cycle-100 pair the divergence improvement is
    (baseline.divergence - mitigated.divergence) / baseline.divergence * 100
    and its value, 83.058..., is 83.06 to two decimals: within 0.005 of
    83.06, and formatted to two decimals in binary64 it reads 83.06.  The
    formula is met exactly in the exact reading and within 1e-9 in the
    binary64 reading. *)
Theorem divergence_improvement_at_100 :
  in_both (fun num _ =>
    exists baseline mitigated v,
      result_no_mitigation_100 (num := num) = Ok baseline /\
      result_with_mitigation_100 (num := num) = Ok mitigated /\
      improvement_D = Ok v /\
      approx_some 1e-9 v
        (pct_of_difference (divergence baseline) (divergence mitigated)
           (divergence baseline)) /\
      approx 0.001 v 83.058 /\
      approx 0.005 v 83.06) /\
  (exists baseline mitigated v,
     result_no_mitigation_100 (num := Q) = Ok baseline /\
     result_with_mitigation_100 (num := Q) = Ok mitigated /\
     improvement_D = Ok v /\
     (v == (divergence baseline - divergence mitigated)
           / divergence baseline * 100)%Q) /\
  (exists v,
     improvement_D (num := float) = Ok v /\
     format_f 2 v = "83.06"%string).
Proof.
  split; [split|split]; [| | |eexists; split; by_evaluation];
    do 3 eexists; do 3 (split; [by_evaluation|]).
  - split; [apply approx_someb_spec; by_evaluation|].
    split; apply approxb_spec; by_evaluation.
  - split; [apply approx_someb_spec; by_evaluation|].
    split; apply approxb_spec; by_evaluation.
  - apply Qeq_bool_iff. by_evaluation.
Qed.

(** The fairness improvement the script computes for the cycle-100 pair
    is not the difference taken over the mitigated fairness, and is not
    near 79.12. *)
Lemma fairness_improvement_not_over_mitigated :
  in_both (fun num _ =>
    exists baseline mitigated v,
      result_no_mitigation_100 (num := num) = Ok baseline /\
      result_with_mitigation_100 (num := num) = Ok mitigated /\
      improvement_J = Ok v /\
      ~ approx_some 1 v
          (pct_of_difference (fairness mitigated) (fairness baseline)
             (fairness mitigated)) /\
      ~ approx 1 v 79.12).
Proof.
  split; do 3 eexists; do 3 (split; [by_evaluation|]).
  all: split; [apply not_approx_some | apply not_approx]; by_evaluation.
Qed.

(** C1: for the cycle-100 pair the fairness improvement is
    (mitigated.fairness - baseline.fairness) / baseline.fairness * 100: the
    denominator is the baseline (unmitigated) fairness, and the value is
    about 380.21.  The formula is met exactly in the exact reading and
    within 1e-9 in the binary64 reading. *)
Theorem fairness_improvement_at_100 :
  in_both (fun num _ =>
    exists baseline mitigated v,
      result_no_mitigation_100 (num := num) = Ok baseline /\
      result_with_mitigation_100 (num := num) = Ok mitigated /\
      improvement_J = Ok v /\
      approx_some 1e-9 v
        (pct_of_difference (fairness mitigated) (fairness baseline)
           (fairness baseline)) /\
      approx 0.01 v 380.21) /\
  (exists baseline mitigated v,
     result_no_mitigation_100 (num := Q) = Ok baseline /\
     result_with_mitigation_100 (num := Q) = Ok mitigated /\
     improvement_J = Ok v /\
     (v == (fairness mitigated - fairness baseline)
           / fairness baseline * 100)%Q).
Proof.
  split; [split|]; do 3 eexists; do 3 (split; [by_evaluation|]).
  - split; [apply approx_someb_spec | apply approxb_spec]; by_evaluation.
  - split; [apply approx_someb_spec | apply approxb_spec]; by_evaluation.
  - apply Qeq_bool_iff. by_evaluation.
Qed.

(** In the binary64 reading, on every cycle index up to 2000, the
    mitigated fairness is at least the unmitigated one and they are
    equal at cycle 0 only. *)
Lemma mitigated_fairness_binary64_sweep :
  dominance_upto (num := float) 2001 = true.
Proof. vm_compute. reflexivity. Qed.

(** * Further properties of the two models *)

(** Facts on integers, added as facts on their injections into [Q]. *)
Lemma Zlt_Qle_succ (a b : Z) : a < b -> (inject_Z a + 1 <= inject_Z b)%Q.
Proof.
  intros Hab. assert (Hs : a + 1 <= b) by lia.
  rewrite Zle_Qle, inject_Z_plus in Hs. exact Hs.
Qed.

Ltac add_Q_facts :=
  repeat match goal with
  | Hc : (?a <> 0)%Z |- _ =>
      lazymatch goal with
      | _ : (1 <= a)%Z |- _ => fail
      | _ : (a < 0)%Z |- _ => fail
      | _ => first [ assert (1 <= a)%Z by lia | assert (a < 0)%Z by lia ]
      end
  | Hc : (?a <= ?b)%Z |- _ =>
      lazymatch goal with
      | _ : (inject_Z a <= inject_Z b)%Q |- _ => fail
      | _ => assert (inject_Z a <= inject_Z b)%Q by (rewrite <- Zle_Qle; exact Hc)
      end
  | Hc : (?a < ?b)%Z |- _ =>
      lazymatch goal with
      | _ : (inject_Z a + 1 <= inject_Z b)%Q |- _ => fail
      | _ => pose proof (Zlt_Qle_succ a b Hc)
      end
  end.

Ltac inject_subs :=
  repeat match goal with
  | |- context [inject_Z (?a - ?b)] =>
      let q := fresh "q" in let Hq := fresh "Hq" in
      pose proof (inject_Z_sub a b) as Hq;
      set (q := inject_Z (a - b)) in *; clearbody q
  | Hc : context [inject_Z (?a - ?b)] |- _ =>
      let q := fresh "q" in let Hq := fresh "Hq" in
      pose proof (inject_Z_sub a b) as Hq;
      set (q := inject_Z (a - b)) in *; clearbody q
  end.

Ltac inject_consts :=
  repeat match goal with
  | Hc : context [inject_Z (Zpos ?p)] |- _ =>
      change (inject_Z (Zpos p)) with (Zpos p # 1)%Q in Hc
  | |- context [inject_Z (Zpos ?p)] =>
      change (inject_Z (Zpos p)) with (Zpos p # 1)%Q
  | Hc : context [inject_Z (Zneg ?p)] |- _ =>
      change (inject_Z (Zneg p)) with (Zneg p # 1)%Q in Hc
  | |- context [inject_Z (Zneg ?p)] =>
      change (inject_Z (Zneg p)) with (Zneg p # 1)%Q
  | Hc : context [inject_Z Z0] |- _ => change (inject_Z Z0) with 0%Q in Hc
  | |- context [inject_Z Z0] => change (inject_Z Z0) with 0%Q
  end.

Ltac Q_facts := add_Q_facts; inject_subs; inject_consts.

Ltac exact_arith := split_max; Q_facts; lra.

(** Either side of an equivalence between a fact on values and a fact on
    the cycle index, once the case of the index is known. *)
Ltac decide_iff :=
  split; intros ?; Q_facts; first [assumption | lia | lra | exfalso; lra | exfalso; lia].

(** Splitting on whether an integer has reached a bound. *)
Ltac reached k c :=
  let Hk := fresh "Hk" in destruct (Z.leb_spec k c) as [Hk|Hk].

(** X1: without mitigation the divergence is strictly increasing over
    the non-negative cycle indices, across the phase boundaries at 50 and
    65 as within the phases. *)
Theorem unmitigated_divergence_increasing (c1 c2 : Z) :
  0 <= c1 -> c1 < c2 ->
  exists s1 s2,
    simulate_fairness_collapse (num := Q) c1 false = Ok s1 /\
    simulate_fairness_collapse (num := Q) c2 false = Ok s2 /\
    (divergence s1 < divergence s2)%Q.
Proof.
  intros H0 H12.
  exists (exact_unmitigated c1), (exact_unmitigated c2).
  split; [apply simulate_exact_unmitigated|].
  split; [apply simulate_exact_unmitigated|].
  phase c1; phase c2; try lia; cbn [divergence]; exact_arith.
Qed.

Lemma unmitigated_divergence_increasing_witness :
  exists s1 s2,
    simulate_fairness_collapse (num := Q) 65 false = Ok s1 /\
    simulate_fairness_collapse (num := Q) 66 false = Ok s2 /\
    (divergence s1 < divergence s2)%Q.
Proof. apply (unmitigated_divergence_increasing 65 66); lia. Defined.


(** X2: without mitigation the fairness of a non-negative cycle index
    lies between 0.15 and 0.96, and it is on the floor 0.15 exactly from
    cycle 105 on. *)
Theorem unmitigated_fairness_floor (c : Z) :
  0 <= c ->
  exists s,
    simulate_fairness_collapse (num := Q) c false = Ok s /\
    (0.15 <= fairness s <= 0.96)%Q /\
    ((fairness s == 0.15)%Q <-> 105 <= c).
Proof.
  intros H0. exists (exact_unmitigated c).
  split; [apply simulate_exact_unmitigated|].
  reached 105 c; phase c; try lia; cbn [fairness]; split_max;
    (split; [split; Q_facts; lra | decide_iff]).
Qed.

Lemma unmitigated_fairness_floor_witness :
  exists s,
    simulate_fairness_collapse (num := Q) 105 false = Ok s /\
    (0.15 <= fairness s <= 0.96)%Q /\
    ((fairness s == 0.15)%Q <-> 105 <= 105).
Proof. apply (unmitigated_fairness_floor 105). lia. Defined.


(** X3: with mitigation, on a non-negative cycle index, the divergence
    lies between 0.05 and 0.20 and is on the cap 0.20 exactly from cycle
    108 on; the fairness lies between 0.90 and 0.96 and is on the floor
    0.90 exactly from cycle 120 on. *)
Theorem mitigated_cap_and_floor (c : Z) :
  0 <= c ->
  exists s,
    simulate_fairness_collapse (num := Q) c true = Ok s /\
    (0.05 <= divergence s <= 0.20)%Q /\
    ((divergence s == 0.20)%Q <-> 108 <= c) /\
    (0.90 <= fairness s <= 0.96)%Q /\
    ((fairness s == 0.90)%Q <-> 120 <= c).
Proof.
  intros H0. exists (exact_mitigated c).
  split; [apply simulate_exact_mitigated|].
  unfold exact_mitigated; cbn [divergence fairness].
  split; [split; exact_arith|].
  split; [reached 108 c; split_max; decide_iff|].
  split; [split; exact_arith|].
  reached 120 c; split_max; decide_iff.
Qed.

Lemma mitigated_cap_and_floor_witness :
  exists s,
    simulate_fairness_collapse (num := Q) 108 true = Ok s /\
    (0.05 <= divergence s <= 0.20)%Q /\
    ((divergence s == 0.20)%Q <-> 108 <= 108) /\
    (0.90 <= fairness s <= 0.96)%Q /\
    ((fairness s == 0.90)%Q <-> 120 <= 108).
Proof. apply (mitigated_cap_and_floor 108). lia. Defined.


(** X4: with mitigation, over all integers, a larger cycle index never
    has a smaller divergence nor a larger fairness. *)
Theorem mitigated_monotone (c1 c2 : Z) :
  c1 <= c2 ->
  exists s1 s2,
    simulate_fairness_collapse (num := Q) c1 true = Ok s1 /\
    simulate_fairness_collapse (num := Q) c2 true = Ok s2 /\
    (divergence s1 <= divergence s2)%Q /\
    (fairness s2 <= fairness s1)%Q.
Proof.
  intros H12. exists (exact_mitigated c1), (exact_mitigated c2).
  split; [apply simulate_exact_mitigated|].
  split; [apply simulate_exact_mitigated|].
  unfold exact_mitigated; cbn [divergence fairness].
  split; exact_arith.
Qed.

Lemma mitigated_monotone_witness :
  exists s1 s2,
    simulate_fairness_collapse (num := Q) (-5) true = Ok s1 /\
    simulate_fairness_collapse (num := Q) 200 true = Ok s2 /\
    (divergence s1 <= divergence s2)%Q /\
    (fairness s2 <= fairness s1)%Q.
Proof. apply (mitigated_monotone (-5) 200). lia. Defined.


(** X5: mitigation lowers the divergence only from cycle 8 on: on the
    cycles 0 to 7 the mitigated divergence, which starts from the residual
    0.05, is strictly above the unmitigated one, and from cycle 8 on it is
    strictly below. *)
Theorem mitigation_lowers_divergence_from_cycle_8 (c : Z) :
  0 <= c ->
  exists u m,
    simulate_fairness_collapse (num := Q) c false = Ok u /\
    simulate_fairness_collapse (num := Q) c true = Ok m /\
    ((divergence m < divergence u)%Q <-> 8 <= c) /\
    ((divergence u < divergence m)%Q <-> c <= 7).
Proof.
  intros H0. exists (exact_unmitigated c), (exact_mitigated c).
  split; [apply simulate_exact_unmitigated|].
  split; [apply simulate_exact_mitigated|].
  unfold exact_mitigated.
  reached 8 c; phase c; try lia; cbn [divergence]; split_max;
    (split; decide_iff).
Qed.

Lemma mitigation_lowers_divergence_from_cycle_8_witness :
  exists u m,
    simulate_fairness_collapse (num := Q) 7 false = Ok u /\
    simulate_fairness_collapse (num := Q) 7 true = Ok m /\
    ((divergence m < divergence u)%Q <-> 8 <= 7) /\
    ((divergence u < divergence m)%Q <-> 7 <= 7).
Proof. apply (mitigation_lowers_divergence_from_cycle_8 7). lia. Defined.


(** X6: without mitigation the divergence of a non-negative cycle index
    is above the critical threshold 0.5 exactly from cycle 61 on, that is
    already in Phase 2. *)
Theorem unmitigated_divergence_crosses_half_at_61 (c : Z) :
  0 <= c ->
  exists u,
    simulate_fairness_collapse (num := Q) c false = Ok u /\
    ((0.5 < divergence u)%Q <-> 61 <= c).
Proof.
  intros H0. exists (exact_unmitigated c).
  split; [apply simulate_exact_unmitigated|].
  reached 61 c; phase c; try lia; cbn [divergence]; decide_iff.
Qed.

Lemma unmitigated_divergence_crosses_half_at_61_witness :
  exists u,
    simulate_fairness_collapse (num := Q) 61 false = Ok u /\
    ((0.5 < divergence u)%Q <-> 61 <= 61).
Proof. apply (unmitigated_divergence_crosses_half_at_61 61). lia. Defined.


(** X7: on a negative cycle index the unmitigated divergence is negative
    and the mitigated divergence is below the residual 0.05; the fairness
    leaves the range up to 1: the unmitigated one is above 1 exactly for
    cycle indices up to -9, the mitigated one exactly up to -81. *)
Theorem negative_cycle_values (c : Z) :
  c < 0 ->
  exists u m,
    simulate_fairness_collapse (num := Q) c false = Ok u /\
    simulate_fairness_collapse (num := Q) c true = Ok m /\
    (divergence u < 0)%Q /\ (divergence m < 0.05)%Q /\
    ((1 < fairness u)%Q <-> c <= -9) /\
    ((1 < fairness m)%Q <-> c <= -81).
Proof.
  intros H0. exists (exact_unmitigated c), (exact_mitigated c).
  split; [apply simulate_exact_unmitigated|].
  split; [apply simulate_exact_mitigated|].
  unfold exact_mitigated.
  phase c; try lia; cbn [divergence fairness].
  split; [exact_arith|]. split; [exact_arith|].
  split; [reached (-8) c | reached (-80) c]; split_max; decide_iff.
Qed.

Lemma negative_cycle_values_witness :
  exists u m,
    simulate_fairness_collapse (num := Q) (-9) false = Ok u /\
    simulate_fairness_collapse (num := Q) (-9) true = Ok m /\
    (divergence u < 0)%Q /\ (divergence m < 0.05)%Q /\
    ((1 < fairness u)%Q <-> -9 <= -9) /\
    ((1 < fairness m)%Q <-> -9 <= -81).
Proof. apply (negative_cycle_values (-9)). lia. Defined.


Lemma improvement_D_of_exact (u m : CycleSample Q) :
  improvement_D_of u m =
  if Qeq_bool (divergence u) 0 then Raise ZeroDivisionError
  else Ok ((divergence u - divergence m) / divergence u * inject_Z 100)%Q.
Proof.
  unfold improvement_D_of, mul_int; cbn [truediv of_int exact sub mul bind].
  destruct (Qeq_bool (divergence u) 0); reflexivity.
Qed.

Lemma improvement_J_of_exact (u m : CycleSample Q) :
  improvement_J_of u m =
  if Qeq_bool (fairness u) 0 then Raise ZeroDivisionError
  else Ok ((fairness m - fairness u) / fairness u * inject_Z 100)%Q.
Proof.
  unfold improvement_J_of, mul_int; cbn [truediv of_int exact sub mul bind].
  destruct (Qeq_bool (fairness u) 0); reflexivity.
Qed.

(** The sign and size of [a / b * 100] for a positive [b]. *)
Lemma pct_facts (a b : Q) :
  (0 < b)%Q ->
  ((0 < a / b * inject_Z 100)%Q <-> (0 < a)%Q) /\
  ((a / b * inject_Z 100 < 100)%Q <-> (a < b)%Q) /\
  ((a / b * inject_Z 100 == 0)%Q <-> (a == 0)%Q).
Proof.
  intros Hb.
  assert (Hr : (b * (a / b) == a)%Q) by (apply Qmult_div_r; lra).
  set (r := (a / b)%Q) in *. clearbody r. inject_consts.
  repeat split; intros Hx; nra.
Qed.

Lemma exact_divergence_facts (c : Z) :
  0 <= c ->
  (0.05 <= divergence (exact_mitigated c))%Q /\
  (0 <= divergence (exact_unmitigated c))%Q /\
  ((divergence (exact_unmitigated c) == 0)%Q <-> c = 0) /\
  ((divergence (exact_mitigated c) < divergence (exact_unmitigated c))%Q
   <-> 8 <= c).
Proof.
  intros H0. unfold exact_mitigated.
  reached 8 c; phase c; try lia; cbn [divergence]; split_max;
    (split; [Q_facts; lra|]); (split; [Q_facts; lra|]); split; decide_iff.
Qed.

Lemma exact_fairness_facts (c : Z) :
  0 <= c ->
  (0.15 <= fairness (exact_unmitigated c))%Q /\
  (fairness (exact_unmitigated c) <= fairness (exact_mitigated c))%Q /\
  ((fairness (exact_mitigated c) == fairness (exact_unmitigated c))%Q
   <-> c = 0).
Proof.
  intros H0. unfold exact_mitigated.
  phase c; cbn [fairness]; split_max;
    (split; [Q_facts; lra|]); (split; [Q_facts; lra|]); decide_iff.
Qed.

(** X8: for the pair of samples of a non-negative cycle index, the
    divergence improvement raises [ZeroDivisionError] at cycle 0, where
    the baseline divergence is 0, and only there; at every other cycle it
    is below 100, and it is positive exactly from cycle 8 on. *)
Theorem divergence_improvement_over_cycles (c : Z) :
  0 <= c ->
  exists u m,
    simulate_fairness_collapse (num := Q) c false = Ok u /\
    simulate_fairness_collapse (num := Q) c true = Ok m /\
    match improvement_D_of u m with
    | Raise e => e = ZeroDivisionError /\ c = 0
    | Ok v => c <> 0 /\ (v < 100)%Q /\ ((0 < v)%Q <-> 8 <= c)
    end.
Proof.
  intros H0. exists (exact_unmitigated c), (exact_mitigated c).
  split; [apply simulate_exact_unmitigated|].
  split; [apply simulate_exact_mitigated|].
  destruct (exact_divergence_facts c H0) as (Hm & Hu & Hz & Hx).
  rewrite improvement_D_of_exact.
  destruct (Qeq_bool (divergence (exact_unmitigated c)) 0) eqn:E.
  - apply Qeq_bool_iff in E. apply Hz in E. split; [reflexivity | exact E].
  - assert (Hne : ~ (divergence (exact_unmitigated c) == 0)%Q)
      by (intros F; apply Qeq_bool_iff in F; congruence).
    assert (Hc : c <> 0) by tauto.
    split; [exact Hc|].
    assert (Hpos : (0 < divergence (exact_unmitigated c))%Q) by lra.
    destruct (pct_facts
                (divergence (exact_unmitigated c) - divergence (exact_mitigated c))
                (divergence (exact_unmitigated c)) Hpos) as (Hs & Hl & _).
    split; [apply Hl; lra|].
    rewrite Hs, <- Hx. split; intros; lra.
Qed.

Lemma divergence_improvement_over_cycles_witness :
  exists u m,
    simulate_fairness_collapse (num := Q) 0 false = Ok u /\
    simulate_fairness_collapse (num := Q) 0 true = Ok m /\
    match improvement_D_of u m with
    | Raise e => e = ZeroDivisionError /\ 0 = 0
    | Ok v => 0 <> 0 /\ (v < 100)%Q /\ ((0 < v)%Q <-> 8 <= 0)
    end.
Proof. apply (divergence_improvement_over_cycles 0). lia. Defined.


(** X9: for the pair of samples of a non-negative cycle index, the
    fairness improvement never raises, is never negative, and is 0 at
    cycle 0 only. *)
Theorem fairness_improvement_over_cycles (c : Z) :
  0 <= c ->
  exists u m w,
    simulate_fairness_collapse (num := Q) c false = Ok u /\
    simulate_fairness_collapse (num := Q) c true = Ok m /\
    improvement_J_of u m = Ok w /\
    (0 <= w)%Q /\ ((w == 0)%Q <-> c = 0).
Proof.
  intros H0.
  destruct (exact_fairness_facts c H0) as (Hu & Hle & Hz).
  assert (Hpos : (0 < fairness (exact_unmitigated c))%Q) by lra.
  destruct (pct_facts
              (fairness (exact_mitigated c) - fairness (exact_unmitigated c))
              (fairness (exact_unmitigated c)) Hpos) as (Hs & _ & He).
  exists (exact_unmitigated c), (exact_mitigated c). eexists.
  split; [apply simulate_exact_unmitigated|].
  split; [apply simulate_exact_mitigated|].
  split.
  - rewrite improvement_J_of_exact.
    destruct (Qeq_bool (fairness (exact_unmitigated c)) 0) eqn:E;
      [apply Qeq_bool_iff in E; lra | reflexivity].
  - split.
    + destruct (Qlt_le_dec 0
        (fairness (exact_mitigated c) - fairness (exact_unmitigated c))) as [Hd|Hd].
      * apply Qlt_le_weak, Hs, Hd.
      * assert (Hd0 : (fairness (exact_mitigated c)
                       - fairness (exact_unmitigated c) == 0)%Q) by lra.
        apply He in Hd0. lra.
    + rewrite He, <- Hz. split; intros; lra.
Qed.

Lemma fairness_improvement_over_cycles_witness :
  exists u m w,
    simulate_fairness_collapse (num := Q) 100 false = Ok u /\
    simulate_fairness_collapse (num := Q) 100 true = Ok m /\
    improvement_J_of u m = Ok w /\
    (0 <= w)%Q /\ ((w == 0)%Q <-> 100 = 0).
Proof. apply (fairness_improvement_over_cycles 100). lia. Defined.


(** ** Experiment 1 in the exact reading *)

Lemma simulate_exact_horizon (tau : Z) :
  simulate_prediction_horizon (num := Q) tau = Ok (exact_metrics tau).
Proof.
  unfold simulate_prediction_horizon, exact_metrics, exact_margin,
    exact_efficiency.
  destruct (tau <? 20); [reflexivity|].
  destruct (tau <? 60); reflexivity.
Qed.

(** Divisions by the constants of the source, as multiplications. *)
Ltac div_consts :=
  unfold Qdiv in *;
  change (/ inject_Z 60)%Q with (1 # 60)%Q in *;
  change (/ inject_Z 20)%Q with (1 # 20)%Q in *;
  change (/ inject_Z 200)%Q with (1 # 200)%Q in *;
  change (/ inject_Z 10)%Q with (1 # 10)%Q in *.

Ltac horizon_phase tau :=
  unfold exact_efficiency;
  let E20 := fresh "E20" in
  let E60 := fresh "E60" in
  destruct (Z.ltb_spec tau 20) as [E20|E20];
  [ | destruct (Z.ltb_spec tau 60) as [E60|E60] ].

Lemma sign_pp (k e p : Q) : (0 < k -> 0 < e -> 0 < p -> 0 < k * e * p)%Q.
Proof. intros. repeat apply Qmult_lt_0_compat; assumption. Qed.

Lemma sign_nn (k e p : Q) : (0 < k -> e < 0 -> p < 0 -> 0 < k * e * p)%Q.
Proof.
  intros Hk He Hp.
  assert (E : (k * e * p == k * (- e) * (- p))%Q) by ring.
  rewrite E. apply sign_pp; lra.
Qed.

Lemma sign_pn (k e p : Q) : (0 < k -> 0 < e -> p < 0 -> k * e * p < 0)%Q.
Proof.
  intros Hk He Hp.
  pose proof (sign_pp k e (- p) Hk He ltac:(lra)) as H.
  assert (E : (k * e * - p == - (k * e * p))%Q) by ring.
  rewrite E in H. lra.
Qed.

Lemma exact_efficiency_sign (tau : Z) :
  0 <= tau ->
  (tau < 250 -> (0 < exact_efficiency tau)%Q) /\
  (tau = 250 -> (exact_efficiency tau == 0)%Q) /\
  (250 < tau -> (exact_efficiency tau < 0)%Q) /\
  (exact_efficiency tau <= 0.95)%Q.
Proof.
  intros H0. horizon_phase tau; repeat split; intros;
    div_consts; Q_facts; try subst tau; Q_facts; lra.
Qed.

Lemma exact_margin_sign (tau : Z) :
  0 <= tau ->
  (tau < 240 -> (0 < exact_margin tau)%Q) /\
  (tau = 240 -> (exact_margin tau == 0)%Q) /\
  (240 < tau -> (exact_margin tau < 0)%Q).
Proof.
  intros H0. unfold exact_margin, exact_prediction_error.
  repeat split; intros; div_consts; try subst tau; Q_facts; nra.
Qed.

(** ** Checking a property on every integer of a range *)

Lemma upto_forallb (P : Z -> bool) (n : nat) :
  forallb P (upto n) = true ->
  forall t, 0 <= t < Z.of_nat n -> P t = true.
Proof.
  intros Hall t Ht. rewrite forallb_forall in Hall. apply Hall.
  unfold upto. rewrite <- (Z2Nat.id t) by lia.
  apply in_map, in_seq. lia.
Qed.

Lemma lt_valueb_spec {num : Type} `{Arith num} (x y : num) :
  lt_valueb x y = true <-> lt_value x y.
Proof.
  unfold lt_valueb, lt_value.
  destruct (to_Q x) as [a|]; [destruct (to_Q y) as [b|] |].
  - apply Qlt_bool_true.
  - split; [discriminate | contradiction].
  - split; [discriminate | contradiction].
Qed.

Lemma leq_valueb_spec {num : Type} `{Arith num} (x y : num) :
  leq_valueb x y = true <-> leq_value x y.
Proof.
  unfold leq_valueb, leq_value.
  destruct (to_Q x) as [a|]; [destruct (to_Q y) as [b|] |].
  - apply Qle_bool_iff.
  - split; [discriminate | contradiction].
  - split; [discriminate | contradiction].
Qed.

(** ** Latency, prediction error and throughput over the horizons *)

(** X10: over the non-negative horizons the prediction error and the
    latency are strictly increasing; they start from 0.4 ms and 7.8 ms at
    horizon 0. *)
Theorem latency_and_error_increase (t1 t2 : Z) :
  0 <= t1 -> t1 < t2 ->
  exists m1 m2,
    simulate_prediction_horizon (num := Q) t1 = Ok m1 /\
    simulate_prediction_horizon (num := Q) t2 = Ok m2 /\
    (prediction_error_ms m1 < prediction_error_ms m2)%Q /\
    (latency_ms m1 < latency_ms m2)%Q /\
    (0.4 <= prediction_error_ms m1)%Q /\
    (7.8 <= latency_ms m1)%Q.
Proof.
  intros H0 H12. exists (exact_metrics t1), (exact_metrics t2).
  split; [apply simulate_exact_horizon|].
  split; [apply simulate_exact_horizon|].
  unfold exact_metrics, exact_prediction_error;
    cbn [prediction_error_ms latency_ms].
  div_consts; Q_facts. repeat split; nra.
Qed.

Lemma latency_and_error_increase_witness :
  exists m1 m2,
    simulate_prediction_horizon (num := Q) 10 = Ok m1 /\
    simulate_prediction_horizon (num := Q) 30 = Ok m2 /\
    (prediction_error_ms m1 < prediction_error_ms m2)%Q /\
    (latency_ms m1 < latency_ms m2)%Q /\
    (0.4 <= prediction_error_ms m1)%Q /\
    (7.8 <= latency_ms m1)%Q.
Proof. apply (latency_and_error_increase 10 30); lia. Defined.


(** X11: on a non-negative horizon the throughput is negative exactly
    for the horizons strictly between 240 and 250 (the error penalty has
    passed 1 and the link efficiency is still positive), and it is 0
    exactly at 240 and at 250. *)
Theorem throughput_sign (tau : Z) :
  0 <= tau ->
  exists m,
    simulate_prediction_horizon (num := Q) tau = Ok m /\
    ((throughput_mbps m < 0)%Q <-> 240 < tau < 250) /\
    ((throughput_mbps m == 0)%Q <-> tau = 240 \/ tau = 250).
Proof.
  intros H0. exists (exact_metrics tau).
  split; [apply simulate_exact_horizon|].
  unfold exact_metrics; cbn [throughput_mbps].
  destruct (exact_efficiency_sign tau H0) as (Ep & Ez & En & _).
  destruct (exact_margin_sign tau H0) as (Mp & Mz & Mn).
  assert (HK : (0 < inject_Z 1000 * 0.95)%Q) by reflexivity.
  set (K := (inject_Z 1000 * 0.95)%Q) in *. clearbody K.
  set (e := exact_efficiency tau) in *. clearbody e.
  set (p := exact_margin tau) in *. clearbody p.
  assert (Hcases : tau < 240 \/ tau = 240 \/ 240 < tau < 250
                   \/ tau = 250 \/ 250 < tau) by lia.
  destruct Hcases as [C|[C|[C|[C|C]]]].
  - pose proof (sign_pp K e p HK (Ep ltac:(lia)) (Mp C)).
    split; split; intros; first [lia | lra].
  - assert (Hz : (K * e * p == 0)%Q) by (rewrite (Mz C); ring).
    split; split; intros; first [lia | lra | tauto].
  - pose proof (sign_pn K e p HK (Ep ltac:(lia)) (Mn ltac:(lia))).
    split; split; intros; first [lia | lra].
  - assert (Hz : (K * e * p == 0)%Q) by (rewrite (Ez C); ring).
    split; split; intros; first [lia | lra | tauto].
  - pose proof (sign_nn K e p HK (En C) (Mn ltac:(lia))).
    split; split; intros; first [lia | lra].
Qed.

Lemma throughput_sign_witness :
  exists m,
    simulate_prediction_horizon (num := Q) 245 = Ok m /\
    ((throughput_mbps m < 0)%Q <-> 240 < 245 < 250) /\
    ((throughput_mbps m == 0)%Q <-> 245 = 240 \/ 245 = 250).
Proof. apply (throughput_sign 245). lia. Defined.


Lemma capacity_sweep :
  forallb (fun t => Qle_bool (throughput_mbps (exact_metrics t)) 1000)
    (upto 403) = true.
Proof. vm_compute. reflexivity. Qed.

Lemma above_capacity (K e p : Q) :
  (K == 950 -> e <= - (0.765) -> p <= - (1.3818) -> 1000 < K * e * p)%Q.
Proof. intros HK He Hp. rewrite HK. nra. Qed.

(** X12: on a non-negative horizon the throughput is above the link
    capacity of 1000 Mbps exactly from horizon 403 on: past 250 the
    negative efficiency and the negative error margin multiply to a
    positive throughput. *)
Theorem throughput_exceeds_capacity_from_403 (tau : Z) :
  0 <= tau ->
  exists m,
    simulate_prediction_horizon (num := Q) tau = Ok m /\
    ((1000 < throughput_mbps m)%Q <-> 403 <= tau).
Proof.
  intros H0. exists (exact_metrics tau).
  split; [apply simulate_exact_horizon|].
  reached 403 tau.
  - split; [intros _; exact Hk|]. intros _.
    unfold exact_metrics; cbn [throughput_mbps].
    apply above_capacity; [reflexivity| |].
    + horizon_phase tau; try lia. div_consts; Q_facts; lra.
    + unfold exact_margin, exact_prediction_error. div_consts; Q_facts; nra.
  - pose proof (upto_forallb _ _ capacity_sweep tau ltac:(lia)) as Hle.
    cbv beta in Hle. apply Qle_bool_iff in Hle.
    split; intros Hx; [exfalso; lra | lia].
Qed.

Lemma throughput_exceeds_capacity_from_403_witness :
  exists m,
    simulate_prediction_horizon (num := Q) 403 = Ok m /\
    ((1000 < throughput_mbps m)%Q <-> 403 <= 403).
Proof. apply (throughput_exceeds_capacity_from_403 403). lia. Defined.


Lemma peak_at_20_sweep {num : Type} `{Arith num} :
  forall n, forallb (fun t => (t =? 20) || below_peak 20 t) (upto n) = true ->
  forall tau, 0 <= tau < Z.of_nat n -> tau <> 20 ->
  exists m m20,
    simulate_prediction_horizon (num := num) tau = Ok m /\
    simulate_prediction_horizon (num := num) 20 = Ok m20 /\
    lt_value (throughput_mbps m) (throughput_mbps m20) /\
    lt (throughput_mbps m) (throughput_mbps m20) = true.
Proof.
  intros n Hall tau Ht Hne.
  pose proof (upto_forallb _ _ Hall tau Ht) as Hp. cbv beta in Hp.
  destruct (Z.eqb_spec tau 20) as [|_]; [contradiction|].
  cbn [orb] in Hp. unfold below_peak in Hp.
  destruct (simulate_prediction_horizon tau) as [m|]; [|discriminate].
  destruct (simulate_prediction_horizon 20) as [m20|]; [|discriminate].
  apply andb_true_iff in Hp. destruct Hp as [Hv Hl].
  exists m, m20. repeat split; [apply lt_valueb_spec, Hv | exact Hl].
Qed.

(** X13: among the horizons 0 to 390 the throughput is greatest at
    horizon 20, strictly: every other horizon of that range, the
    selected 30 included, has a smaller throughput.  In both readings. *)
Theorem throughput_peaks_at_20 :
  in_both (fun num _ =>
    forall tau, 0 <= tau <= 390 -> tau <> 20 ->
    exists m m20,
      simulate_prediction_horizon (num := num) tau = Ok m /\
      simulate_prediction_horizon (num := num) 20 = Ok m20 /\
      lt_value (throughput_mbps m) (throughput_mbps m20) /\
      lt (throughput_mbps m) (throughput_mbps m20) = true).
Proof.
  split; intros tau Ht Hne;
    apply (peak_at_20_sweep 391); [by_evaluation | lia | exact Hne
                                  | by_evaluation | lia | exact Hne].
Qed.

Lemma throughput_peaks_at_20_witness :
  in_both (fun num _ =>
    exists m m20,
      simulate_prediction_horizon (num := num) 30 = Ok m /\
      simulate_prediction_horizon (num := num) 20 = Ok m20 /\
      lt_value (throughput_mbps m) (throughput_mbps m20) /\
      lt (throughput_mbps m) (throughput_mbps m20) = true).
Proof.
  split.
  - apply (proj1 throughput_peaks_at_20 30); [lia | discriminate].
  - apply (proj2 throughput_peaks_at_20 30); [lia | discriminate].
Defined.


(** ** The binary64 reading over the cycle indices up to 2000 *)

Lemma leq_value_trans {num : Type} `{Arith num} (x y z : num) :
  leq_value x y -> leq_value y z -> leq_value x z.
Proof.
  unfold leq_value.
  destruct (to_Q x) as [a|], (to_Q y) as [b|], (to_Q z) as [c|];
    try contradiction. apply Qle_trans.
Qed.

Lemma ordered_samples_trans {num : Type} `{Arith num} (flag : bool)
  (i j k : Z) :
  ordered_samples flag i j -> ordered_samples flag j k ->
  ordered_samples flag i k.
Proof.
  intros (s1 & s2 & E1 & E2 & Hf & Hd) (s2' & s3 & E2' & E3 & Hf' & Hd').
  rewrite E2 in E2'. injection E2' as <-.
  exists s1, s3. repeat split; try assumption.
  - apply leq_value_trans with (fairness s2); assumption.
  - apply leq_value_trans with (divergence s2); assumption.
Qed.

Lemma step_ok_spec {num : Type} `{Arith num} (flag : bool) (c : Z) :
  step_ok flag c = true -> ordered_samples flag c (c + 1).
Proof.
  unfold step_ok, ordered_samples.
  destruct (simulate_fairness_collapse c flag) as [s1|]; [|discriminate].
  destruct (simulate_fairness_collapse (c + 1) flag) as [s2|]; [|discriminate].
  rewrite andb_true_iff, !leq_valueb_spec. intros [Hf Hd].
  exists s1, s2. repeat split; assumption.
Qed.

(** Steps that are in order chain into pairs that are in order. *)
Lemma ordered_samples_chain {num : Type} `{Arith num} (flag : bool) (n : nat) :
  forallb (step_ok flag) (upto n) = true ->
  forall c1 c2, 0 <= c1 -> c1 < c2 -> c2 <= Z.of_nat n ->
  ordered_samples flag c1 c2.
Proof.
  intros Hall c1 c2 H0 H12 Hn.
  assert (Hstep : forall c, 0 <= c < Z.of_nat n -> ordered_samples flag c (c + 1))
    by (intros c Hc; apply step_ok_spec, (upto_forallb _ _ Hall c Hc)).
  replace c2 with (c1 + Z.of_nat (S (Z.to_nat (c2 - c1 - 1)))) in * by lia.
  induction (Z.to_nat (c2 - c1 - 1)) as [|k IH].
  - apply Hstep. lia.
  - apply ordered_samples_trans with (c1 + Z.of_nat (S k)).
    + apply IH; lia.
    + replace (c1 + Z.of_nat (S (S k))) with (c1 + Z.of_nat (S k) + 1) by lia.
      apply Hstep. lia.
Qed.

(** X14: in the binary64 reading, on both paths, between any two cycle
    indices 0 <= c1 < c2 <= 2000 the fairness does not rise and the
    divergence does not fall. *)
Theorem binary64_monotone_upto_2000 (with_mitigation : bool) (c1 c2 : Z) :
  0 <= c1 -> c1 < c2 -> c2 <= 2000 ->
  exists s1 s2,
    simulate_fairness_collapse (num := float) c1 with_mitigation = Ok s1 /\
    simulate_fairness_collapse (num := float) c2 with_mitigation = Ok s2 /\
    leq_value (fairness s2) (fairness s1) /\
    leq_value (divergence s1) (divergence s2).
Proof.
  intros H0 H12 Hn.
  apply (ordered_samples_chain with_mitigation 2000); try lia.
  destruct with_mitigation; by_evaluation.
Qed.

Lemma binary64_monotone_upto_2000_witness :
  exists s1 s2,
    simulate_fairness_collapse (num := float) 65 false = Ok s1 /\
    simulate_fairness_collapse (num := float) 66 false = Ok s2 /\
    leq_value (fairness s2) (fairness s1) /\
    leq_value (divergence s1) (divergence s2).
Proof. apply (binary64_monotone_upto_2000 false 65 66); lia. Defined.


(** X15: on every cycle index from 0 to 2000 and on both paths, the
    divergence and the fairness computed in binary64 are within 1e-12 of
    the exact ones. *)
Theorem binary64_tracks_exact_cycles (with_mitigation : bool) (c : Z) :
  0 <= c <= 2000 ->
  exists s e,
    simulate_fairness_collapse (num := float) c with_mitigation = Ok s /\
    simulate_fairness_collapse (num := Q) c with_mitigation = Ok e /\
    approx 1e-12 (divergence s) (divergence e) /\
    approx 1e-12 (fairness s) (fairness e).
Proof.
  intros Hc.
  assert (Hall : forallb (tracks_exact_cycle 1e-12 with_mitigation) (upto 2001)
                 = true) by (destruct with_mitigation; by_evaluation).
  pose proof (upto_forallb _ _ Hall c ltac:(lia)) as Ht.
  unfold tracks_exact_cycle in Ht.
  destruct (simulate_fairness_collapse (num := float) c with_mitigation)
    as [s|]; [|discriminate].
  destruct (simulate_fairness_collapse (num := Q) c with_mitigation)
    as [e|]; [|discriminate].
  rewrite andb_true_iff, !approxb_spec in Ht.
  exists s, e. tauto.
Qed.

Lemma binary64_tracks_exact_cycles_witness :
  exists s e,
    simulate_fairness_collapse (num := float) 100 false = Ok s /\
    simulate_fairness_collapse (num := Q) 100 false = Ok e /\
    approx 1e-12 (divergence s) (divergence e) /\
    approx 1e-12 (fairness s) (fairness e).
Proof. apply (binary64_tracks_exact_cycles false 100). lia. Defined.


(** X16: in the binary64 reading, on every cycle index from 0 to 2000,
    the mitigated fairness is at least the unmitigated one, and the two
    are the same number at cycle 0 only. *)
Theorem binary64_fairness_dominance_upto_2000 (c : Z) :
  0 <= c <= 2000 ->
  exists m u,
    simulate_fairness_collapse (num := float) c true = Ok m /\
    simulate_fairness_collapse (num := float) c false = Ok u /\
    leq_value (fairness u) (fairness m) /\
    (same_value (fairness m) (fairness u) <-> c = 0).
Proof.
  intros Hc.
  assert (Hall : forallb (dominance_at (num := float)) (upto 2001) = true)
    by by_evaluation.
  pose proof (upto_forallb _ _ Hall c ltac:(lia)) as Ht.
  unfold dominance_at in Ht.
  destruct (simulate_fairness_collapse (num := float) c true)
    as [m|]; [|discriminate].
  destruct (simulate_fairness_collapse (num := float) c false)
    as [u|]; [|discriminate].
  rewrite andb_true_iff, leq_valueb_spec in Ht. destruct Ht as [Hle Heq].
  apply eqb_prop in Heq.
  exists m, u. repeat split; try assumption.
  - intros Hs. apply same_valueb_spec in Hs. rewrite Heq in Hs.
    apply Z.eqb_eq, Hs.
  - intros ->. apply same_valueb_spec. rewrite Heq. reflexivity.
Qed.

Lemma binary64_fairness_dominance_upto_2000_witness :
  exists m u,
    simulate_fairness_collapse (num := float) 0 true = Ok m /\
    simulate_fairness_collapse (num := float) 0 false = Ok u /\
    leq_value (fairness u) (fairness m) /\
    (same_value (fairness m) (fairness u) <-> 0 = 0).
Proof. apply (binary64_fairness_dominance_upto_2000 0). lia. Defined.


(** X17: on every horizon from 0 to 1000 the throughput, the latency and
    the prediction error computed in binary64 are within 1e-9 of the
    exact ones. *)
Theorem binary64_tracks_exact_horizons (tau : Z) :
  0 <= tau <= 1000 ->
  exists m e,
    simulate_prediction_horizon (num := float) tau = Ok m /\
    simulate_prediction_horizon (num := Q) tau = Ok e /\
    approx 1e-9 (throughput_mbps m) (throughput_mbps e) /\
    approx 1e-9 (latency_ms m) (latency_ms e) /\
    approx 1e-9 (prediction_error_ms m) (prediction_error_ms e).
Proof.
  intros Ht.
  assert (Hall : forallb (tracks_exact_horizon 1e-9) (upto 1001) = true)
    by by_evaluation.
  pose proof (upto_forallb _ _ Hall tau ltac:(lia)) as Hc.
  unfold tracks_exact_horizon in Hc.
  destruct (simulate_prediction_horizon (num := float) tau)
    as [m|]; [|discriminate].
  destruct (simulate_prediction_horizon (num := Q) tau)
    as [e|]; [|discriminate].
  rewrite !andb_true_iff, !approxb_spec in Hc.
  exists m, e. tauto.
Qed.

Lemma binary64_tracks_exact_horizons_witness :
  exists m e,
    simulate_prediction_horizon (num := float) 30 = Ok m /\
    simulate_prediction_horizon (num := Q) 30 = Ok e /\
    approx 1e-9 (throughput_mbps m) (throughput_mbps e) /\
    approx 1e-9 (latency_ms m) (latency_ms e) /\
    approx 1e-9 (prediction_error_ms m) (prediction_error_ms e).
Proof. apply (binary64_tracks_exact_horizons 30). lia. Defined.


(** ** When the binary64 reading raises *)

Lemma overflow_threshold_large : 65 < overflow_threshold.
Proof. reflexivity. Qed.

Lemma of_int_binary64_overflow (z : Z) :
  overflow_threshold <= Z.abs z ->
  of_int (num := float) z = Raise OverflowError.
Proof.
  intros Hz.
  change (of_int (num := float) z)
    with (if Z.abs z <? overflow_threshold then Ok (round_int z)
          else Raise OverflowError).
  destruct (Z.ltb_spec (Z.abs z) overflow_threshold); [lia | reflexivity].
Qed.

(** X18: in the binary64 reading the only exception of
    [simulate_fairness_collapse] is [OverflowError], raised exactly when
    the [int] it converts is too large for a double: with mitigation when
    [|c| >= 2^1024 - 2^970]; without, when [c <= -(2^1024 - 2^970)]
    (Phase 1 converts [c]) or [c >= 2^1024 - 2^970 + 65] (Phase 3
    converts [c - 65]). *)
Theorem simulate_binary64_raises (c : Z) (with_mitigation : bool) :
  (fails (simulate_fairness_collapse (num := float) c with_mitigation) <->
   if with_mitigation then overflow_threshold <= Z.abs c
   else c <= - overflow_threshold \/ overflow_threshold + 65 <= c) /\
  (forall e,
     simulate_fairness_collapse (num := float) c with_mitigation = Raise e ->
     e = OverflowError).
Proof.
  pose proof overflow_threshold_large as HT.
  assert (Hok : forall s : CycleSample float,
            (fails (Ok s) <-> False) /\
            (forall e, Ok s = Raise e -> e = OverflowError)).
  { intros s. split; [split; [intros [e He]; discriminate | contradiction]|].
    intros e He. discriminate. }
  assert (Hraise :
            (fails (@Raise (CycleSample float) OverflowError) <-> True) /\
            (forall e, @Raise (CycleSample float) OverflowError = Raise e ->
                       e = OverflowError)).
  { split; [split; [trivial | intros _; eexists; reflexivity]|].
    intros e He. injection He as <-. reflexivity. }
  unfold simulate_fairness_collapse, int_mul.
  destruct with_mitigation.
  - destruct (Z.lt_ge_cases (Z.abs c) overflow_threshold) as [Hc|Hc].
    + rewrite !of_int_binary64 by lia. cbn [bind].
      destruct (Hok {| cycle := c;
                       divergence := py_min (lit 0.05 + round_int c * lit 0.0014)%num (lit 0.20);
                       fairness := py_max (lit 0.96 - round_int c * lit 0.0005)%num (lit 0.90) |})
        as [H1 H2].
      split; [rewrite H1; lia | exact H2].
    + rewrite !of_int_binary64_overflow by lia. cbn [bind].
      destruct Hraise as [H1 H2]. split; [rewrite H1; tauto | exact H2].
  - destruct (Z.eqb_spec c 0) as [E|E].
    + match goal with |- (fails (Ok ?s) <-> _) /\ _ =>
        destruct (Hok s) as [H1 H2] end.
      split; [rewrite H1; lia | exact H2].
    + destruct (Z.leb_spec c 50) as [E50|E50];
        [|destruct (Z.leb_spec c 65) as [E65|E65]].
      * destruct (Z.lt_ge_cases (Z.abs c) overflow_threshold) as [Hc|Hc].
        -- rewrite !of_int_binary64 by lia. cbn [bind].
           match goal with |- (fails (Ok ?s) <-> _) /\ _ =>
             destruct (Hok s) as [H1 H2] end.
           split; [rewrite H1; lia | exact H2].
        -- rewrite !of_int_binary64_overflow by lia. cbn [bind].
           destruct Hraise as [H1 H2]. split; [rewrite H1; split; [lia|trivial] | exact H2].
      * rewrite !of_int_binary64 by lia. cbn [bind].
        match goal with |- (fails (Ok ?s) <-> _) /\ _ =>
          destruct (Hok s) as [H1 H2] end.
        split; [rewrite H1; lia | exact H2].
      * destruct (Z.lt_ge_cases (Z.abs (c - 65)) overflow_threshold) as [Hc|Hc].
        -- rewrite !of_int_binary64 by lia. cbn [bind].
           match goal with |- (fails (Ok ?s) <-> _) /\ _ =>
             destruct (Hok s) as [H1 H2] end.
           split; [rewrite H1; lia | exact H2].
        -- rewrite !of_int_binary64_overflow by lia. cbn [bind].
           destruct Hraise as [H1 H2]. split; [rewrite H1; split; [lia|trivial] | exact H2].
Qed.

Lemma simulate_binary64_raises_witness :
  fails (simulate_fairness_collapse (num := float) (overflow_threshold + 65) false).
Proof.
  apply (proj1 (simulate_binary64_raises (overflow_threshold + 65) false)).
  right. lia.
Defined.


(** ** The selection in any arithmetic *)

Lemma max_scan_in {num : Type} `{Arith num} {S : Type}
  (key : S -> num) (l : list S) :
  forall best, In (max_scan key best l) (best :: l).
Proof.
  induction l as [|x l' IH]; intros best; cbn [max_scan].
  - left. reflexivity.
  - destruct (IH (if lt (key best) (key x) then x else best)) as [Hh|Ht].
    + rewrite <- Hh. destruct (lt (key best) (key x));
        [right; left; reflexivity | left; reflexivity].
    + right. right. exact Ht.
Qed.

(** X19: in any arithmetic, whatever the comparison answers (also on
    NaN keys), the selection raises only on the empty sequence, then
    [ValueError], and otherwise returns one of the samples of the
    sequence. *)
Theorem optimal_of_selects_a_member :
  forall (num : Type) (arith : Arith num) (rs : list (HorizonSample num)),
    (optimal_of rs = Raise ValueError <-> rs = []) /\
    (forall e, optimal_of rs = Raise e -> e = ValueError) /\
    (forall best, optimal_of rs = Ok best -> In best rs).
Proof.
  intros num arith [|r rs]; unfold optimal_of, py_max_key.
  - repeat split; try discriminate; try reflexivity.
    intros e He. injection He as <-. reflexivity.
  - repeat split; try discriminate.
    intros best Hb. injection Hb as <-. apply max_scan_in.
Qed.

Lemma optimal_of_selects_a_member_witness :
  In {| horizon := 2; throughput := 5%Q; latency := 0%Q;
        prediction_error := 0%Q |} tie_samples.
Proof.
  apply (proj2 (proj2 (optimal_of_selects_a_member Q exact tie_samples))).
  reflexivity.
Defined.


(** ** What the scripts print *)

(** The formats on sample values: ties go to the even digit, on the exact
    value of the double; the sign is kept in front of a zero. *)
Lemma format_f_samples :
  map (format_f 2) [0.125; 0.375; 0.005; -0.001; -0; 1.1214999999999999]%float
  = ["0.12"; "0.38"; "0.01"; "-0.00"; "-0.00"; "1.12"]%string
  /\ map (format_f 1) [9.45; 12; 0.05]%float = ["9.4"; "12.0"; "0.1"]%string
  /\ map (format_f 0) [2.5; 3.5; 569.99999999999989]%float
     = ["2"; "4"; "570"]%string
  /\ map (format_f 2) [infinity; neg_infinity; nan]%float
     = ["inf"; "-inf"; "nan"]%string.
Proof. vm_compute. repeat split. Qed.

(** X20: the second script runs to its end without raising and prints,
    to two decimals, the anchor values its comments give for the cycles
    0, 50, 65 and 100 (0.00/0.96, 0.42/0.71, 0.53/0.48, 1.12/0.19) and
    0.19/0.91 for the mitigated cycle 100; the improvement percentages it
    computes are those of [improvement_D] and [improvement_J], and they
    are not printed. *)
Theorem experiment2_prints :
  exists d j,
    improvement_D (num := float) = Ok d /\
    improvement_J (num := float) = Ok j /\
    experiment2_script EmptyString =
    (unlines
       [ "Experiment 2: Fairness Under Model Divergence"; "";
         "WITHOUT MITIGATIONS:";
         "----------------------------------------"; "";
         "Cycle 0:";
         "Model Divergence (D): 0.00";
         "Fairness (J): 0.96"; "";
         "Cycle 50:";
         "Model Divergence (D): 0.42";
         "Fairness (J): 0.71"; "";
         "Cycle 65:";
         "Model Divergence (D): 0.53";
         "Fairness (J): 0.48"; "";
         "Cycle 100:";
         "Model Divergence (D): 1.12";
         "Fairness (J): 0.19"; "";
         "";
         "PROPOSED MITIGATION RESULTS:";
         "----------------------------------------"; "";
         "Cycle 100 - WITHOUT mitigations:";
         "Model Divergence (D): 1.12";
         "Fairness (J): 0.19"; "";
         "Cycle 100 - WITH mitigations:";
         "Model Divergence (D): 0.19";
         "Fairness (J): 0.91"; "";
         "Quantitative improvements:";
         "----------------------------------------";
         "Divergence: 1.12 -> 0.19 ";
         "Fairness: 0.19 -> 0.91 " ]%string,
     Ok (d, j)).
Proof.
  do 2 eexists. split; [by_evaluation|]. split; by_evaluation.
Qed.

(** X21: the first script, up to its plotting, runs without raising and
    prints for the horizons 10, 30, 45, 60 and 90 the throughputs 786,
    821, 792, 758 and 570 Mbps, the latencies 8.1, 8.8, 9.4, 10.2 and
    12.0 ms and the prediction errors 0.5, 0.9, 1.2, 1.6 and 2.5 ms,
    then horizon 30 as the optimum; the sample it reports is [optimal]. *)
Theorem experiment1_prints :
  exists best,
    optimal (num := float) = Ok best /\
    experiment1_script EmptyString =
    (unlines
       [ "Experiment 1: Optimal Prediction Horizon"; "";
         "T = 10s:";
         "Throughput: 786 Mbps"; "Latency: 8.1 ms";
         "Prediction Error: 0.5 ms"; "";
         "T = 30s:";
         "Throughput: 821 Mbps"; "Latency: 8.8 ms";
         "Prediction Error: 0.9 ms"; "";
         "T = 45s:";
         "Throughput: 792 Mbps"; "Latency: 9.4 ms";
         "Prediction Error: 1.2 ms"; "";
         "T = 60s:";
         "Throughput: 758 Mbps"; "Latency: 10.2 ms";
         "Prediction Error: 1.6 ms"; "";
         "T = 90s:";
         "Throughput: 570 Mbps"; "Latency: 12.0 ms";
         "Prediction Error: 2.5 ms"; "";
         "Optimal prediction horizon: T* = 30s";
         "Throughput: 821 Mbps"; "Latency: 8.8 ms";
         "Prediction Error: 0.9 ms" ]%string,
     Ok best).
Proof.
  eexists. split; by_evaluation.
Qed.
